(** * S32K1xx FTFC program-memory driver (arch/arm/src/s32k1xx/s32k1xx_progmem.c)

  A shallow embedding of the driver.  The flash controller is reached
  through byte-wide memory-mapped accesses only, so the driver is written
  in a small state monad over a machine made of an abstract device and the
  chronological log of every bus access the code performs.  The busy-wait
  on the completion flag is the only unbounded loop; it carries a poll
  budget, and results that need the loop to end are stated for devices
  that eventually raise the completion flag. *)

From Stdlib Require Import ZArith List Lia Bool.
Import ListNotations.
Open Scope Z_scope.

(** ** Machine integers of the target (ARM, 32-bit, little-endian) *)

Module Word.

(** [uint32_t] and [size_t] arithmetic wraps modulo 2^32. *)
Definition wrap32 (z : Z) : Z := z mod 4294967296.

(** Conversion to [uint8_t]. *)
Definition to_uint8 (z : Z) : Z := z mod 256.

(** Conversion of a [size_t] value to [ssize_t]. *)
Definition to_ssize (z : Z) : Z :=
  let w := wrap32 z in
  if w <? 2147483648 then w else w - 4294967296.

(** Little-endian 32-bit value made of four bytes. *)
Definition le32 (b0 b1 b2 b3 : Z) : Z :=
  to_uint8 b0 + 256 * to_uint8 b1 + 65536 * to_uint8 b2
  + 16777216 * to_uint8 b3.

End Word.
Import Word.

(** <errno.h> *)
Definition EIO : Z := 5.
Definition EFAULT : Z := 14.
Definition EINVAL : Z := 22.

(** ** Configuration constants

  The geometry macros come from s32k1xx_progmem.h and the two
  conditional-compilation switches from the build; the driver is
  parameterised over them. *)

Record progmem_config : Type := {
  S32K1XX_PROGMEM_START_ADDR : Z;
  S32K1XX_PROGMEM_PAGE_SIZE : Z;
  S32K1XX_PROGMEM_PAGE_COUNT : Z;
  S32K1XX_PROGMEM_BLOCK_SECTOR_SIZE : Z;
  S32K1XX_PROGMEM_SECTOR_COUNT : Z;
  S32K1XX_PROGMEM_DFLASH_WRITE_UNIT_SIZE : Z;
  FTFC_VERIFY_CHECK : bool;
  SMART_FS_DOUBLE_WRITE_WORKAROUND : bool
}.

(** Register addresses, status bits and command opcodes of
  hardware/s32k1xx_ftfc.h. *)

Record ftfc_regs : Type := {
  S32K1XX_FTFC_BASE : Z;
  S32K1XX_MSCM_BASE : Z;
  S32K1XX_FTFC_FSTAT : Z;
  S32K1XX_FTFC_FCCOB0 : Z;
  S32K1XX_FTFC_FCCOB1 : Z;
  S32K1XX_FTFC_FCCOB2 : Z;
  S32K1XX_FTFC_FCCOB3 : Z;
  S32K1XX_FTFC_FCCOB4 : Z;
  S32K1XX_FTFC_FCCOB5 : Z;
  S32K1XX_FTFC_FCCOB6 : Z;
  FTTC_FSTAT_CCIF : Z;
  FTTC_FSTAT_RDCOLERR : Z;
  FTTC_FSTAT_ACCERR : Z;
  FTTC_FSTAT_FPVIOL : Z;
  FTTC_FSTAT_MGSTAT0 : Z;
  S32K1XX_FTFC_ERASE_SECTOR : Z;
  S32K1XX_FTFC_VERIFY_SECTION : Z;
  S32K1XX_FTFC_PROGRAM_PHRASE : Z;
  S32K1XX_FTFC_PROGRAM_CHECK : Z;
  S32K1XX_FTFC_PROGRAM_PARTITION : Z
}.

(** ** The hardware access port

  A device is any deterministic responder to bus accesses.  Reading a
  register may advance the device (time passes while the driver polls);
  the memory-mapped flash array is read without side effect. *)

Record device : Type := {
  hw : Type;
  dev_get : Z -> hw -> Z * hw;
  dev_put : Z -> Z -> hw -> hw;
  dev_put32 : Z -> Z -> hw -> hw;
  dev_mem : hw -> Z -> Z
}.

Inductive event : Type :=
| Get8 (addr val : Z)
| Put8 (val addr : Z)
| Put32 (val addr : Z)
| Load8 (addr val : Z)
| Load32 (addr val : Z).

(** ** union fccob_flash_addr

  The union overlays a [uint32_t] with four bytes; on the little-endian
  target [fccob3] is the least significant byte. *)

Definition fccob3 (addr : Z) : Z := to_uint8 addr.
Definition fccob2 (addr : Z) : Z := to_uint8 (Z.shiftr addr 8).
Definition fccob1 (addr : Z) : Z := to_uint8 (Z.shiftr addr 16).

Section Driver.

Variable cfg : progmem_config.
Variable R : ftfc_regs.
Variable D : device.

Record machine : Type := { dev : hw D; log : list event }.

(** State monad with failure; [None] only ever means that a busy-wait
    used up its poll budget. *)
Definition M (A : Type) : Type := machine -> option (A * machine).

Definition ret {A} (a : A) : M A := fun m => Some (a, m).

Definition bind {A B} (c : M A) (k : A -> M B) : M B :=
  fun m => match c m with
           | Some (a, m') => k a m'
           | None => None
           end.

Notation "x <- c ;; k" := (bind c (fun x => k))
  (at level 61, c at next level, right associativity).
Notation "c ;; k" := (bind c (fun _ => k))
  (at level 61, right associativity).

(** *** Bus primitives (up_arch.h) *)

Definition getreg8 (a : Z) : M Z := fun m =>
  let (v, d') := dev_get D a (dev m) in
  let v8 := to_uint8 v in
  Some (v8, {| dev := d'; log := log m ++ [Get8 a v8] |}).

(** A byte store: the value is converted to [uint8_t]. *)
Definition putreg8 (v a : Z) : M unit := fun m =>
  let v8 := to_uint8 v in
  Some (tt, {| dev := dev_put D v8 a (dev m);
               log := log m ++ [Put8 v8 a] |}).


(** The byte of the memory-mapped array at an address. *)
Definition flash_byte (d : hw D) (a : Z) : Z := to_uint8 (dev_mem D d a).

Definition flash_word (d : hw D) (a : Z) : Z :=
  le32 (dev_mem D d a) (dev_mem D d (a + 1))
       (dev_mem D d (a + 2)) (dev_mem D d (a + 3)).

(** [p[i]] through a [const uint8_t *]. *)
Definition load8 (a : Z) : M Z := fun m =>
  let v := flash_byte (dev m) a in
  Some (v, {| dev := dev m; log := log m ++ [Load8 a v] |}).

(** [*(uint32_t * )addr]. *)
Definition load32 (a : Z) : M Z := fun m =>
  let v := flash_word (dev m) a in
  Some (v, {| dev := dev m; log := log m ++ [Load32 a v] |}).

(** *** Private functions *)

Abbreviation FSTAT := (S32K1XX_FTFC_FSTAT R).
Abbreviation CCIF := (FTTC_FSTAT_CCIF R).

(** The mask tested after every command. *)
Definition FSTAT_ERROR_MASK : Z :=
  Z.lor (FTTC_FSTAT_MGSTAT0 R)
    (Z.lor (FTTC_FSTAT_FPVIOL R)
       (Z.lor (FTTC_FSTAT_ACCERR R) (FTTC_FSTAT_RDCOLERR R))).

(** The mask written to clear stale errors. *)
Definition FSTAT_CLEAR_MASK : Z :=
  Z.lor (FTTC_FSTAT_FPVIOL R)
    (Z.lor (FTTC_FSTAT_ACCERR R) (FTTC_FSTAT_RDCOLERR R)).

(** [while ((getreg8(FSTAT) & CCIF) == 0) {}], at most [fuel] polls. *)
Fixpoint wait_ftfc_ready (fuel : nat) : M unit :=
  match fuel with
  | O => fun _ => None
  | S fuel' =>
      v <- getreg8 FSTAT ;;
      if Z.land v CCIF =? 0 then wait_ftfc_ready fuel' else ret tt
  end.

(** Whether the completion flag is seen set within [n] reads of FSTAT. *)
Fixpoint ready_within (n : nat) (d : hw D) : bool :=
  match n with
  | O => false
  | S n' =>
      let (v, d') := dev_get D FSTAT d in
      if Z.land (to_uint8 v) CCIF =? 0 then ready_within n' d' else true
  end.

(** A controller that never leaves the driver polling for ever. *)
Definition live : Prop := forall d, exists n, ready_within n d = true.

(** The write-one-to-clear convention of the completion flag: after a
    store to FSTAT with the completion bit set, FSTAT reads with the
    completion flag at 0. *)
Definition launch_clears_ccif : Prop :=
  forall v d,
    Z.land v CCIF <> 0 ->
    Z.land (to_uint8 (fst (dev_get D FSTAT (dev_put D v FSTAT d)))) CCIF = 0.

Definition execute_ftfc_command (fuel : nat) : M Z :=
  regval <- getreg8 FSTAT ;;
  let regval := Z.lor regval CCIF in
  putreg8 regval FSTAT ;;
  wait_ftfc_ready fuel ;;
  retval <- getreg8 FSTAT ;;
  if negb (Z.land retval FSTAT_ERROR_MASK =? 0)
  then ret retval
  else ret retval.

(** The executor as the specification words it: launch, wait, then return
    the status register as read, with no case distinction. *)
Definition execute_ftfc_command_raw (fuel : nat) : M Z :=
  regval <- getreg8 FSTAT ;;
  putreg8 (Z.lor regval CCIF) FSTAT ;;
  wait_ftfc_ready fuel ;;
  getreg8 FSTAT.

(** *** Public functions *)

Abbreviation START_ADDR := (S32K1XX_PROGMEM_START_ADDR cfg).
Abbreviation PAGE_SIZE := (S32K1XX_PROGMEM_PAGE_SIZE cfg).
Abbreviation PAGE_COUNT := (S32K1XX_PROGMEM_PAGE_COUNT cfg).
Abbreviation BLOCK_SECTOR_SIZE := (S32K1XX_PROGMEM_BLOCK_SECTOR_SIZE cfg).
Abbreviation WRITE_UNIT_SIZE := (S32K1XX_PROGMEM_DFLASH_WRITE_UNIT_SIZE cfg).

Definition up_progmem_neraseblocks : Z :=
  wrap32 (S32K1XX_PROGMEM_SECTOR_COUNT cfg).

Definition up_progmem_isuniform : bool := true.

Definition up_progmem_pagesize (page : Z) : Z := wrap32 PAGE_SIZE.

Definition up_progmem_erasesize (block : Z) : Z := wrap32 BLOCK_SECTOR_SIZE.

(** [if (addr >= START_ADDR) addr -= START_ADDR;], the opening of both
    [up_progmem_getpage] and [up_progmem_write]. *)
Definition strip_start_addr (addr : Z) : Z :=
  if START_ADDR <=? addr then wrap32 (addr - START_ADDR) else addr.

Definition up_progmem_getpage (addr : Z) : Z :=
  let addr := strip_start_addr addr in
  to_ssize (addr / PAGE_SIZE).

Definition up_progmem_getaddress (page : Z) : Z :=
  wrap32 (START_ADDR + page * PAGE_SIZE).

(** The flash region lies inside the 32-bit address space and its page
    indices are representable in [ssize_t]. *)
Definition region_fits : Prop :=
  0 <= START_ADDR /\ 0 < PAGE_SIZE /\
  START_ADDR + PAGE_COUNT * PAGE_SIZE <= 4294967296 /\
  PAGE_COUNT <= 2147483648.

(** The three address bytes of a command, most significant first. *)
Definition put_fccob_addr (dest : Z) : M unit :=
  putreg8 (fccob1 dest) (S32K1XX_FTFC_FCCOB1 R) ;;
  putreg8 (fccob2 dest) (S32K1XX_FTFC_FCCOB2 R) ;;
  putreg8 (fccob3 dest) (S32K1XX_FTFC_FCCOB3 R).

(** Lines 250-263: the erase-sector command, up to the status returned by
    the executor. *)
Definition erase_sector_command (fuel : nat) (dest : Z) : M Z :=
  wait_ftfc_ready fuel ;;
  putreg8 FSTAT_CLEAR_MASK FSTAT ;;
  putreg8 (S32K1XX_FTFC_ERASE_SECTOR R) (S32K1XX_FTFC_FCCOB0 R) ;;
  put_fccob_addr dest ;;
  execute_ftfc_command fuel.

(** Lines 270-284: the verify-section command under FTFC_VERIFY_CHECK. *)
Definition verify_section_command (fuel : nat) (dest : Z) : M Z :=
  wait_ftfc_ready fuel ;;
  putreg8 FSTAT_CLEAR_MASK FSTAT ;;
  putreg8 (S32K1XX_FTFC_VERIFY_SECTION R) (S32K1XX_FTFC_FCCOB0 R) ;;
  put_fccob_addr dest ;;
  putreg8 1 (S32K1XX_FTFC_FCCOB4 R) ;;
  putreg8 0 (S32K1XX_FTFC_FCCOB5 R) ;;
  putreg8 1 (S32K1XX_FTFC_FCCOB6 R) ;;
  execute_ftfc_command fuel.

Definition ftfc_failed (status : Z) : bool :=
  negb (Z.land status FSTAT_ERROR_MASK =? 0).

(** Line 247: the controller-side address of a block. *)
Definition erase_dest (block : Z) : Z :=
  wrap32 (block * BLOCK_SECTOR_SIZE + 8388608 - START_ADDR).

Definition up_progmem_eraseblock (fuel : nat) (block : Z) : M Z :=
  let dest := erase_dest block in
  st <- erase_sector_command fuel dest ;;
  if ftfc_failed st then ret (- EIO)
  else if FTFC_VERIFY_CHECK cfg then
    st' <- verify_section_command fuel dest ;;
    if ftfc_failed st' then ret (- EIO)
    else ret (to_ssize BLOCK_SECTOR_SIZE)
  else ret (to_ssize BLOCK_SECTOR_SIZE).

(** The scan of lines 324-330: [n] iterations left, [i] the loop counter;
    the value of [i] when the loop is left is returned. *)
Fixpoint scan_erased (p : Z) (n : nat) (i : Z) : M Z :=
  match n with
  | O => ret i
  | S n' =>
      b <- load8 (p + i) ;;
      if negb (b =? 255) then ret i else scan_erased p n' (i + 1)
  end.

Definition up_progmem_ispageerased (page : Z) : M Z :=
  if PAGE_COUNT <=? page then ret (- EFAULT)
  else
    let p := up_progmem_getaddress page in
    i <- scan_erased p (Z.to_nat PAGE_SIZE) 0 ;;
    ret (to_ssize (PAGE_SIZE - i)).

(** The loads of [k] consecutive bytes of the array starting at [p]. *)
Fixpoint loads (d : hw D) (p : Z) (k : nat) : list event :=
  match k with
  | O => []
  | S k' => Load8 p (flash_byte d p) :: loads d (p + 1) k'
  end.

(** The reading of the erased-check result under which a positive result
    [r] is itself the offset of the first byte of the page that is not
    0xFF. *)
Definition positive_result_is_first_dirty_offset (page : Z) (m : machine)
  : Prop :=
  forall r m',
    up_progmem_ispageerased page m = Some (r, m') ->
    0 < r ->
    flash_byte (dev m) (up_progmem_getaddress page + r) <> 255 /\
    forall j, 0 <= j < r ->
      flash_byte (dev m) (up_progmem_getaddress page + j) = 255.

(** The source buffer of a write: the byte found at each offset from
    [buf]. *)
Definition buffer : Type := Z -> Z.

Definition buf_byte (buf : buffer) (off : Z) : Z := to_uint8 (buf off).

Definition buf_word (buf : buffer) : Z :=
  le32 (buf 0) (buf 1) (buf 2) (buf 3).

(** The inner loops of lines 408-412 and 444-448: [n] iterations left,
    [j] the loop counter, [slot] the offset of the first payload slot. *)
Fixpoint load_payload (slot : Z) (buf : buffer) (src : Z) (n : nat) (j : Z)
  : M unit :=
  match n with
  | O => ret tt
  | S n' =>
      let temp := wrap32 (S32K1XX_FTFC_BASE R + j + slot) in
      putreg8 (buf_byte buf (src + j)) temp ;;
      load_payload slot buf src n' (j + 1)
  end.

(** Lines 395-414: one program-phrase command, up to the status returned
    by the executor. *)
Definition program_phrase_command (fuel : nat) (buf : buffer) (dest src : Z)
  : M Z :=
  wait_ftfc_ready fuel ;;
  putreg8 FSTAT_CLEAR_MASK FSTAT ;;
  putreg8 (S32K1XX_FTFC_PROGRAM_PHRASE R) (S32K1XX_FTFC_FCCOB0 R) ;;
  put_fccob_addr dest ;;
  load_payload 8 buf src (Z.to_nat WRITE_UNIT_SIZE) 0 ;;
  execute_ftfc_command fuel.

(** Lines 430-450: one program-check command under FTFC_VERIFY_CHECK. *)
Definition program_check_command (fuel : nat) (buf : buffer) (dest src : Z)
  : M Z :=
  wait_ftfc_ready fuel ;;
  putreg8 FSTAT_CLEAR_MASK FSTAT ;;
  putreg8 (S32K1XX_FTFC_PROGRAM_CHECK R) (S32K1XX_FTFC_FCCOB0 R) ;;
  put_fccob_addr dest ;;
  putreg8 1 (S32K1XX_FTFC_FCCOB4 R) ;;
  load_payload 12 buf src (Z.to_nat WRITE_UNIT_SIZE) 0 ;;
  execute_ftfc_command fuel.

(** A chunk loop: [n] chunks left; [Some r] when the loop body returned
    [r] from the function, [None] when the loop ran to its end. *)
Fixpoint chunk_loop (command : Z -> Z -> M Z) (on_error : Z)
  (n : nat) (dest src : Z) : M (option Z) :=
  match n with
  | O => ret None
  | S n' =>
      st <- command dest src ;;
      if ftfc_failed st then ret (Some on_error)
      else chunk_loop command on_error n'
             (wrap32 (dest + WRITE_UNIT_SIZE)) (src + WRITE_UNIT_SIZE)
  end.

(** Lines 382-388 under SMART_FS_DOUBLE_WRITE_WORKAROUND: [true] when the
    function returns [count] at once. *)
Definition double_write_check (addr : Z) (buf : buffer) : M bool :=
  if SMART_FS_DOUBLE_WRITE_WORKAROUND cfg then
    a <- load32 addr ;;
    if a =? buf_word buf then
      a' <- load32 addr ;;
      ret (wrap32 (a' + 4) =? wrap32 (buf_word buf + 4))
    else ret false
  else ret false.

Definition up_progmem_write (fuel : nat) (addr : Z) (buf : buffer)
  (count : Z) : M Z :=
  let addr := strip_start_addr addr in
  if negb (count mod WRITE_UNIT_SIZE =? 0) then ret (- EINVAL)
  else
    same <- double_write_check addr buf ;;
    if same then ret (to_ssize count)
    else
      let chunks := Z.to_nat (count / WRITE_UNIT_SIZE) in
      let dest := wrap32 (addr + 8388608) in
      r <- chunk_loop (program_phrase_command fuel buf) (- EIO)
             chunks dest 0 ;;
      match r with
      | Some e => ret e
      | None =>
          if FTFC_VERIFY_CHECK cfg then
            r' <- chunk_loop (program_check_command fuel buf)
                    (to_ssize count) chunks dest 0 ;;
            match r' with
            | Some e => ret e
            | None => ret (to_ssize count)
            end
          else ret (to_ssize count)
      end.


(** *** Vocabulary of the properties *)

(** A computation that takes a poll budget converges when every budget
    above some threshold yields the same outcome. *)
Definition converges {A} (c : nat -> M A) : Prop :=
  forall m, exists n0 r,
    forall n, (n0 <= n)%nat -> c n m = Some r.

(** Every operation only ever appends to the log. *)
Definition appends {A} (c : M A) : Prop :=
  forall m a m', c m = Some (a, m') -> exists evs, log m' = log m ++ evs.

(** An operation that cannot wait always returns. *)
Definition total {A} (c : M A) : Prop := forall m, exists r, c m = Some r.

(** A polled value in which the completion flag is clear. *)
Definition ccif_clear (v : Z) : Prop := Z.land v CCIF = 0.

(** A command ends with the read of the status it returns. *)
Definition ends_with_status (c : M Z) : Prop :=
  forall m st m', c m = Some (st, m') ->
    exists evs, log m' = log m ++ evs ++ [Get8 FSTAT st].

(** Two destinations with the same low 24 bits. *)
Definition same_low24 (d d' : Z) : Prop := d mod 16777216 = d' mod 16777216.

(** A controller whose status register never shows an error bit. *)
Definition error_free : Prop :=
  forall d, ftfc_failed (to_uint8 (fst (dev_get D FSTAT d))) = false.

(** A controller state from which the completion flag is never seen. *)
Definition stuck (d : hw D) : Prop := forall n, ready_within n d = false.

(** A command whose result is a value read from FSTAT. *)
Definition returns_fstat_read (c : M Z) : Prop :=
  forall m st m', c m = Some (st, m') ->
    exists d, st = to_uint8 (fst (dev_get D FSTAT d)).

(** The buffer found [c] bytes further on: [(uint8_t * )buf + c]. *)
Definition shift_buffer (buf : buffer) (c : Z) : buffer :=
  fun off => buf (c + off).


(** The number of bytes that are not 0xFF among the [n] bytes of the array
    from [base]. *)
Definition dirty_count (d : hw D) (base : Z) (n : nat) : nat :=
  length (filter (fun k => negb (flash_byte d (base + Z.of_nat k) =? 255))
            (seq 0 n)).

End Driver.

Arguments dev {D} _.
Arguments log {D} _.
Arguments ret {D A} _ _.
Arguments bind {D A B} _ _ _.
Arguments converges D {A} _.
Arguments appends D {A} _.
Arguments total D {A} _.

(** ** An S32K1xx instance

    The geometry of the scenario of the specification (2 KiB pages, 4 KiB
    erase blocks, 8-byte write unit) for 64 KiB of FlexNVM data flash at
    0x10000000, and the FTFC register block at 0x40020000. *)

Definition s32k1xx_dflash (verify workaround : bool) : progmem_config := {|
  S32K1XX_PROGMEM_START_ADDR := 268435456;
  S32K1XX_PROGMEM_PAGE_SIZE := 2048;
  S32K1XX_PROGMEM_PAGE_COUNT := 32;
  S32K1XX_PROGMEM_BLOCK_SECTOR_SIZE := 4096;
  S32K1XX_PROGMEM_SECTOR_COUNT := 16;
  S32K1XX_PROGMEM_DFLASH_WRITE_UNIT_SIZE := 8;
  FTFC_VERIFY_CHECK := verify;
  SMART_FS_DOUBLE_WRITE_WORKAROUND := workaround
|}.

Definition s32k1xx_ftfc : ftfc_regs := {|
  S32K1XX_FTFC_BASE := 1073872896;
  S32K1XX_MSCM_BASE := 1073745920;
  S32K1XX_FTFC_FSTAT := 1073872896;
  S32K1XX_FTFC_FCCOB0 := 1073872903;
  S32K1XX_FTFC_FCCOB1 := 1073872902;
  S32K1XX_FTFC_FCCOB2 := 1073872901;
  S32K1XX_FTFC_FCCOB3 := 1073872900;
  S32K1XX_FTFC_FCCOB4 := 1073872907;
  S32K1XX_FTFC_FCCOB5 := 1073872906;
  S32K1XX_FTFC_FCCOB6 := 1073872905;
  FTTC_FSTAT_CCIF := 128;
  FTTC_FSTAT_RDCOLERR := 64;
  FTTC_FSTAT_ACCERR := 32;
  FTTC_FSTAT_FPVIOL := 16;
  FTTC_FSTAT_MGSTAT0 := 1;
  S32K1XX_FTFC_ERASE_SECTOR := 9;
  S32K1XX_FTFC_VERIFY_SECTION := 1;
  S32K1XX_FTFC_PROGRAM_PHRASE := 7;
  S32K1XX_FTFC_PROGRAM_CHECK := 2;
  S32K1XX_FTFC_PROGRAM_PARTITION := 128
|}.

(** ** A scripted controller

    A test double of the FTFC: a store to FSTAT with the completion bit set
    launches a command (write-one-to-clear), the completion flag then reads
    0 for [sim_latency] polls, after which FSTAT reads the completion bit
    together with the error bits the script assigns to that command.  The
    flash array is a fixed byte map. *)

Record sim : Type := {
  sim_busy : nat;
  sim_status : Z;
  sim_script : list Z;
  sim_array : Z -> Z
}.

Definition sim_latency : nat := 2.

Definition sim_get (a : Z) (s : sim) : Z * sim :=
  if a =? 1073872896 then
    match sim_busy s with
    | O => (Z.lor 128 (sim_status s), s)
    | S b => (0, {| sim_busy := b; sim_status := sim_status s;
                    sim_script := sim_script s;
                    sim_array := sim_array s |})
    end
  else (0, s).

Definition sim_put (v a : Z) (s : sim) : sim :=
  if a =? 1073872896 then
    if Z.testbit v 7 then
      {| sim_busy := sim_latency;
         sim_status := hd 0 (sim_script s);
         sim_script := tl (sim_script s);
         sim_array := sim_array s |}
    else
      {| sim_busy := sim_busy s;
         sim_status := Z.ldiff (sim_status s) v;
         sim_script := sim_script s;
         sim_array := sim_array s |}
  else s.

Definition scripted_ftfc : device := {|
  hw := sim;
  dev_get := sim_get;
  dev_put := sim_put;
  dev_put32 := fun _ _ s => s;
  dev_mem := sim_array
|}.

(** An idle controller that will answer the coming commands with the
    error bits of [script], in front of the flash contents [array]. *)
Definition sim_boot (script : list Z) (array : Z -> Z)
  : machine scripted_ftfc :=
  {| dev := ({| sim_busy := O; sim_status := 0; sim_script := script;
                sim_array := array |} : hw scripted_ftfc);
     log := [] |}.

Definition erased_array : Z -> Z := fun _ => 255.

(** ** An idle controller

    A controller that completes every command before the next read:
    FSTAT always reads the completion flag alone. *)

Definition idle_ftfc : device := {|
  hw := Z -> Z;
  dev_get := fun _ array => (128, array);
  dev_put := fun _ _ array => array;
  dev_put32 := fun _ _ array => array;
  dev_mem := fun array => array
|}.

Definition idle_boot (array : Z -> Z) : machine idle_ftfc :=
  {| dev := (array : hw idle_ftfc); log := [] |}.

(** A controller that is never ready: FSTAT always reads 0. *)
Definition dead_ftfc : device := {|
  hw := unit;
  dev_get := fun _ u => (0, u);
  dev_put := fun _ _ u => u;
  dev_put32 := fun _ _ u => u;
  dev_mem := fun _ _ => 255
|}.

(** ** Sample runs on the scripted controller *)

Definition machine_after {A} (r : option (A * machine scripted_ftfc))
  (m : machine scripted_ftfc) : machine scripted_ftfc :=
  match r with
  | Some (_, m') => m'
  | None => m
  end.

(** A buffer whose byte at each offset is the offset. *)
Definition ramp : buffer := fun off => off.

(** Byte 3 of page 0 programmed to 0, everything else erased. *)
Definition dirty_array : Z -> Z :=
  fun a => if a =? 268435459 then 0 else 255.

(** Three chunks written at the start of the region; the controller
    accepts the first program command and answers the second with
    FPVIOL. *)
Definition violation_boot : machine scripted_ftfc :=
  sim_boot [0; 16] erased_array.

Definition violation_after_chunk0 : machine scripted_ftfc :=
  machine_after
    (chunk_loop (s32k1xx_dflash false false) s32k1xx_ftfc scripted_ftfc
       (program_phrase_command (s32k1xx_dflash false false) s32k1xx_ftfc
          scripted_ftfc 3 ramp)
       (- EIO) 1 8388608 0 violation_boot)
    violation_boot.

Definition violation_after_chunk1 : machine scripted_ftfc :=
  machine_after
    (program_phrase_command (s32k1xx_dflash false false) s32k1xx_ftfc
       scripted_ftfc 3 ramp 8388616 8 violation_after_chunk0)
    violation_boot.

(** Two chunks written with FTFC_VERIFY_CHECK; both program commands and
    the first program check pass, the second program check reports
    MGSTAT0. *)
Definition verify_boot : machine scripted_ftfc :=
  sim_boot [0; 0; 0; 1] erased_array.

Definition verify_after_program : machine scripted_ftfc :=
  machine_after
    (chunk_loop (s32k1xx_dflash true false) s32k1xx_ftfc scripted_ftfc
       (program_phrase_command (s32k1xx_dflash true false) s32k1xx_ftfc
          scripted_ftfc 3 ramp)
       (- EIO) 2 8388608 0 verify_boot)
    verify_boot.

Definition verify_after_check0 : machine scripted_ftfc :=
  machine_after
    (chunk_loop (s32k1xx_dflash true false) s32k1xx_ftfc scripted_ftfc
       (program_check_command (s32k1xx_dflash true false) s32k1xx_ftfc
          scripted_ftfc 3 ramp)
       16 1 8388608 0 verify_after_program)
    verify_boot.

Definition verify_after_check1 : machine scripted_ftfc :=
  machine_after
    (program_check_command (s32k1xx_dflash true false) s32k1xx_ftfc
       scripted_ftfc 3 ramp 8388616 8 verify_after_check0)
    verify_boot.

(** One chunk written at the start of the region, before two more. *)
Definition two_part_boot : machine scripted_ftfc :=
  sim_boot [0; 0; 16] erased_array.

Definition two_part_after_first : machine scripted_ftfc :=
  machine_after
    (up_progmem_write (s32k1xx_dflash false false) s32k1xx_ftfc
       scripted_ftfc 3 268435456 ramp 8 two_part_boot)
    two_part_boot.

(** The data flash erased from the start address up, zeros below it. *)
Definition erased_region_array : Z -> Z :=
  fun a => if 268435456 <=? a then 255 else 0.

(** A buffer that starts with four 0xFF bytes and goes on with zeros. *)
Definition erased_word_then_zeros : buffer :=
  fun off => if off <? 4 then 255 else 0.

(** * Properties *)

Section Theory.

Variable cfg : progmem_config.
Variable R : ftfc_regs.
Variable D : device.

Abbreviation FSTAT := (S32K1XX_FTFC_FSTAT R).
Abbreviation CCIF := (FTTC_FSTAT_CCIF R).
Abbreviation machine' := (machine D).

(** ** Machine integers *)

Lemma wrap32_small z : 0 <= z < 4294967296 -> wrap32 z = z.
Proof. intros H. unfold wrap32. apply Z.mod_small. exact H. Qed.

Lemma wrap32_idem_l a b : wrap32 (wrap32 a + b) = wrap32 (a + b).
Proof. unfold wrap32. apply Zplus_mod_idemp_l. Qed.

Lemma to_uint8_range z : 0 <= to_uint8 z < 256.
Proof. unfold to_uint8. apply Z.mod_pos_bound. lia. Qed.


Lemma to_ssize_small z : 0 <= z < 2147483648 -> to_ssize z = z.
Proof.
  intros H. unfold to_ssize. rewrite wrap32_small by lia.
  destruct (Z.ltb_spec z 2147483648); lia.
Qed.

(** ** The monad *)

Lemma bind_Some {A B} (c : M D A) (k : A -> M D B) m r :
  bind c k m = Some r <->
  exists a m1, c m = Some (a, m1) /\ k a m1 = Some r.
Proof.
  unfold bind. split.
  - destruct (c m) as [[a m1]|]; [|discriminate].
    intros H. exists a, m1. split; [reflexivity|exact H].
  - intros (a & m1 & Hc & Hk). rewrite Hc. exact Hk.
Qed.

Lemma bind_eq {A B} (c : M D A) (k : A -> M D B) m a m1 :
  c m = Some (a, m1) -> bind c k m = k a m1.
Proof. intros H. unfold bind. rewrite H. reflexivity. Qed.

Lemma converges_ret {A} (a : A) : converges D (fun _ => ret a).
Proof. intros m. exists O, (a, m). reflexivity. Qed.

Lemma converges_const {A} (c : M D A) :
  (forall m, exists r, c m = Some r) -> converges D (fun _ => c).
Proof. intros H m. destruct (H m) as [r Hr]. exists O, r. auto. Qed.

Lemma converges_bind {A B} (c : nat -> M D A) (k : nat -> A -> M D B) :
  converges D c -> (forall a, converges D (fun n => k n a)) ->
  converges D (fun n => bind (c n) (k n)).
Proof.
  intros Hc Hk m.
  destruct (Hc m) as (n0 & [a m1] & H0).
  destruct (Hk a m1) as (n1 & r & H1).
  exists (Nat.max n0 n1), r. intros n Hn.
  rewrite (bind_eq _ _ _ _ _ (H0 n ltac:(lia))).
  apply H1. lia.
Qed.

Lemma converges_ext {A} (c c' : nat -> M D A) :
  (forall n m, c n m = c' n m) -> converges D c -> converges D c'.
Proof.
  intros E H m. destruct (H m) as (n0 & r & Hr).
  exists n0, r. intros n Hn. rewrite <- E. auto.
Qed.

(** ** Primitive accesses *)

Lemma getreg8_Some a m :
  exists v d', dev_get D a (dev m) = (v, d') /\
    getreg8 D a m =
      Some (to_uint8 v, {| dev := d'; log := log m ++ [Get8 a (to_uint8 v)] |}).
Proof.
  unfold getreg8. destruct (dev_get D a (dev m)) as [v d'].
  exists v, d'. split; reflexivity.
Qed.

Lemma getreg8_log a m v m' :
  getreg8 D a m = Some (v, m') ->
  log m' = log m ++ [Get8 a v] /\ 0 <= v < 256.
Proof.
  destruct (getreg8_Some a m) as (v0 & d' & _ & E). rewrite E.
  intros H. inversion H; subst. simpl. split; [reflexivity|].
  apply to_uint8_range.
Qed.

Lemma putreg8_log v a m u m' :
  putreg8 D v a m = Some (u, m') -> log m' = log m ++ [Put8 (to_uint8 v) a].
Proof. unfold putreg8. intros H. inversion H; subst. reflexivity. Qed.

Lemma load8_Some a m :
  load8 D a m =
    Some (flash_byte D (dev m) a,
          {| dev := dev m;
             log := log m ++ [Load8 a (flash_byte D (dev m) a)] |}).
Proof. reflexivity. Qed.

Lemma appends_ret {A} (a : A) : appends D (ret a).
Proof.
  intros m a' m' H. inversion H; subst. exists []. now rewrite app_nil_r.
Qed.

Lemma appends_bind {A B} (c : M D A) (k : A -> M D B) :
  appends D c -> (forall a, appends D (k a)) -> appends D (bind c k).
Proof.
  intros Hc Hk m b m' H. apply bind_Some in H.
  destruct H as (a & m1 & H1 & H2).
  destruct (Hc _ _ _ H1) as [e1 E1]. destruct (Hk _ _ _ _ H2) as [e2 E2].
  exists (e1 ++ e2). rewrite E2, E1. now rewrite app_assoc.
Qed.

Lemma appends_getreg8 a : appends D (getreg8 D a).
Proof. intros m v m' H. apply getreg8_log in H. destruct H. eauto. Qed.

Lemma appends_putreg8 v a : appends D (putreg8 D v a).
Proof. intros m u m' H. apply putreg8_log in H. eauto. Qed.

Lemma appends_if {A} (b : bool) (c1 c2 : M D A) :
  appends D c1 -> appends D c2 -> appends D (if b then c1 else c2).
Proof. destruct b; auto. Qed.

Lemma appends_wait fuel : appends D (wait_ftfc_ready R D fuel).
Proof.
  induction fuel as [|f IH]; simpl.
  - intros m a m' H. discriminate.
  - apply appends_bind; [apply appends_getreg8|].
    intros v. apply appends_if; [exact IH|apply appends_ret].
Qed.

Lemma appends_load_payload slot buf src n j :
  appends D (load_payload R D slot buf src n j).
Proof.
  revert j. induction n as [|n IH]; intros j; simpl.
  - apply appends_ret.
  - apply appends_bind; [apply appends_putreg8|]. intros _. apply IH.
Qed.

Lemma appends_put_fccob_addr dest : appends D (put_fccob_addr R D dest).
Proof.
  unfold put_fccob_addr.
  repeat (apply appends_bind; [apply appends_putreg8|intros _]).
  apply appends_putreg8.
Qed.

(** ** The busy-wait *)

Lemma wait_ftfc_ready_inv fuel m u m' :
  wait_ftfc_ready R D fuel m = Some (u, m') ->
  exists polls vr,
    log m' = log m ++ map (Get8 FSTAT) polls ++ [Get8 FSTAT vr] /\
    Forall (ccif_clear R) polls /\ Z.land vr CCIF <> 0 /\
    (length polls < fuel)%nat /\
    (Z.land (to_uint8 (fst (dev_get D FSTAT (dev m)))) CCIF = 0 ->
     polls <> []).
Proof.
  revert m. induction fuel as [|f IH]; intros m H; simpl in H.
  - discriminate.
  - apply bind_Some in H. destruct H as (v & m1 & Hg & Hk).
    destruct (getreg8_Some FSTAT m) as (v0 & d' & Ed & Eg).
    rewrite Eg in Hg. inversion Hg; subst v m1; clear Hg.
    destruct (Z.eqb_spec (Z.land (to_uint8 v0) CCIF) 0) as [E|E].
    + apply IH in Hk. destruct Hk as (polls & vr & Hl' & Hall & Hr & Hn & _).
      exists (to_uint8 v0 :: polls), vr. repeat split.
      * rewrite Hl'. simpl. now rewrite <- app_assoc.
      * constructor; assumption.
      * exact Hr.
      * simpl. lia.
      * discriminate.
    + inversion Hk; subst. exists [], (to_uint8 v0). repeat split.
      * constructor.
      * exact E.
      * simpl. lia.
      * rewrite Ed. simpl. intros E'. contradiction.
Qed.

Lemma ready_within_wait n :
  forall m, ready_within R D n (dev m) = true ->
  exists r, forall n', (n <= n')%nat -> wait_ftfc_ready R D n' m = Some r.
Proof.
  induction n as [|n IH]; intros m H; simpl in H.
  - discriminate.
  - destruct (getreg8_Some FSTAT m) as (v & d' & Ed & Eg).
    rewrite Ed in H.
    destruct (Z.eqb_spec (Z.land (to_uint8 v) CCIF) 0) as [E|E].
    + set (m1 := {| dev := d'; log := log m ++ [Get8 FSTAT (to_uint8 v)] |}).
      destruct (IH m1 H) as [r Hr]. exists r.
      intros [|n'] Hn; [lia|]. simpl.
      rewrite (bind_eq _ _ _ _ _ Eg).
      destruct (Z.eqb_spec (Z.land (to_uint8 v) CCIF) 0); [|contradiction].
      apply Hr. lia.
    + eexists. intros [|n'] Hn; [lia|]. simpl.
      rewrite (bind_eq _ _ _ _ _ Eg).
      destruct (Z.eqb_spec (Z.land (to_uint8 v) CCIF) 0); [contradiction|].
      reflexivity.
Qed.

Lemma wait_ftfc_ready_converges :
  live R D -> converges D (wait_ftfc_ready R D).
Proof.
  intros Hlive m. destruct (Hlive (dev m)) as [n Hn].
  destruct (ready_within_wait n m Hn) as [r Hr]. exists n, r. exact Hr.
Qed.

(** ** Operations that cannot wait *)

Lemma total_ret {A} (a : A) : total D (ret a).
Proof. intros m. eexists. reflexivity. Qed.

Lemma total_bind {A B} (c : M D A) (k : A -> M D B) :
  total D c -> (forall a, total D (k a)) -> total D (bind c k).
Proof.
  intros Hc Hk m. destruct (Hc m) as [[a m1] E].
  destruct (Hk a m1) as [r E']. exists r.
  now rewrite (bind_eq _ _ _ _ _ E).
Qed.

Lemma total_getreg8 a : total D (getreg8 D a).
Proof.
  intros m. destruct (getreg8_Some a m) as (v & d' & _ & E). eauto.
Qed.

Lemma total_putreg8 v a : total D (putreg8 D v a).
Proof. intros m. eexists. reflexivity. Qed.

Lemma total_put_fccob_addr dest : total D (put_fccob_addr R D dest).
Proof.
  unfold put_fccob_addr.
  repeat (apply total_bind; [apply total_putreg8|intros _]).
  apply total_putreg8.
Qed.

Lemma total_load_payload slot buf src n j :
  total D (load_payload R D slot buf src n j).
Proof.
  revert j. induction n as [|n IH]; intros j; simpl.
  - apply total_ret.
  - apply total_bind; [apply total_putreg8|]. intros _. apply IH.
Qed.

Lemma converges_total_bind {A B} (c : M D A) (k : nat -> A -> M D B) :
  total D c -> (forall a, converges D (fun n => k n a)) ->
  converges D (fun n => bind c (k n)).
Proof.
  intros Hc Hk.
  apply (converges_bind (fun _ => c) k); [|exact Hk].
  apply converges_const. exact Hc.
Qed.

(** ** The command executor *)

Lemma execute_ftfc_command_raw_eq fuel m :
  execute_ftfc_command R D fuel m = execute_ftfc_command_raw R D fuel m.
Proof.
  unfold execute_ftfc_command, execute_ftfc_command_raw, bind.
  destruct (getreg8 D FSTAT m) as [[v m1]|]; [|reflexivity].
  destruct (putreg8 D (Z.lor v CCIF) FSTAT m1) as [[u m2]|]; [|reflexivity].
  destruct (wait_ftfc_ready R D fuel m2) as [[u' m3]|]; [|reflexivity].
  destruct (getreg8 D FSTAT m3) as [[r m4]|]; [|reflexivity].
  destruct (negb (Z.land r (FSTAT_ERROR_MASK R) =? 0)); reflexivity.
Qed.

Lemma launch_value_sets_ccif v :
  0 < CCIF < 256 -> Z.land (to_uint8 (Z.lor v CCIF)) CCIF = CCIF.
Proof.
  intros HC. unfold to_uint8. change 256 with (2 ^ 8).
  rewrite <- Z.land_ones by lia.
  rewrite <- Z.land_assoc, (Z.land_comm (Z.ones 8)).
  rewrite (Z.land_ones CCIF 8) by lia.
  change (2 ^ 8) with 256. rewrite (Z.mod_small CCIF 256) by lia.
  apply Z.bits_inj'. intros n Hn.
  rewrite Z.land_spec, Z.lor_spec.
  destruct (Z.testbit v n), (Z.testbit CCIF n); reflexivity.
Qed.

Lemma execute_ftfc_command_inv fuel m r m' :
  execute_ftfc_command R D fuel m = Some (r, m') ->
  exists v0 polls vr,
    log m' = log m
             ++ [Get8 FSTAT v0; Put8 (to_uint8 (Z.lor v0 CCIF)) FSTAT]
             ++ map (Get8 FSTAT) polls
             ++ [Get8 FSTAT vr; Get8 FSTAT r] /\
    Forall (ccif_clear R) polls /\ Z.land vr CCIF <> 0 /\ 0 <= r < 256 /\
    (0 < CCIF < 256 -> launch_clears_ccif R D -> polls <> []).
Proof.
  rewrite execute_ftfc_command_raw_eq. unfold execute_ftfc_command_raw.
  intros H.
  apply bind_Some in H. destruct H as (v0 & m1 & H1 & H).
  apply bind_Some in H. destruct H as (u & m2 & H2 & H).
  apply bind_Some in H. destruct H as (u' & m3 & H3 & H4).
  apply getreg8_log in H1. destruct H1 as [L1 _].
  assert (Hd : dev m2 = dev_put D (to_uint8 (Z.lor v0 CCIF)) FSTAT (dev m1))
    by (unfold putreg8 in H2; inversion H2; reflexivity).
  apply putreg8_log in H2.
  apply wait_ftfc_ready_inv in H3.
  destruct H3 as (polls & vr & L3 & Hall & Hr & _ & Hfirst).
  apply getreg8_log in H4. destruct H4 as [L4 Hrange].
  exists v0, polls, vr. repeat split; try assumption; try lia.
  - rewrite L4, L3, H2, L1. repeat rewrite <- app_assoc. reflexivity.
  - intros HC Hw1c. apply Hfirst. rewrite Hd. apply Hw1c.
    rewrite launch_value_sets_ccif by exact HC. lia.
Qed.

Lemma execute_ftfc_command_converges :
  live R D -> converges D (execute_ftfc_command R D).
Proof.
  intros Hlive.
  apply (converges_ext (execute_ftfc_command_raw R D)).
  { intros n m. symmetry. apply execute_ftfc_command_raw_eq. }
  unfold execute_ftfc_command_raw.
  apply converges_total_bind; [apply total_getreg8|intros v].
  apply converges_total_bind; [apply total_putreg8|intros _].
  apply converges_bind; [apply wait_ftfc_ready_converges; exact Hlive|].
  intros _. apply converges_const. apply total_getreg8.
Qed.

Lemma execute_ends_with_status fuel :
  ends_with_status R D (execute_ftfc_command R D fuel).
Proof.
  intros m st m' H. apply execute_ftfc_command_inv in H.
  destruct H as (v0 & polls & vr & L & _).
  exists ([Get8 FSTAT v0; Put8 (to_uint8 (Z.lor v0 CCIF)) FSTAT]
          ++ map (Get8 FSTAT) polls ++ [Get8 FSTAT vr]).
  rewrite L. rewrite <- !app_assoc. reflexivity.
Qed.

Lemma ends_with_status_bind {A} (c : M D A) (k : A -> M D Z) :
  appends D c -> (forall a, ends_with_status R D (k a)) ->
  ends_with_status R D (bind c k).
Proof.
  intros Hc Hk m st m' H. apply bind_Some in H.
  destruct H as (a & m1 & H1 & H2).
  destruct (Hc _ _ _ H1) as [e1 E1]. destruct (Hk _ _ _ _ H2) as [e2 E2].
  exists (e1 ++ e2). rewrite E2, E1. now rewrite <- !app_assoc.
Qed.

(** ** Commands *)

Ltac step_appends :=
  repeat first
    [ apply appends_wait | apply appends_putreg8 | apply appends_getreg8
    | apply appends_put_fccob_addr | apply appends_load_payload
    | apply appends_ret ].

Ltac command_ends_with_status :=
  repeat (apply ends_with_status_bind; [step_appends|intros _]);
  apply execute_ends_with_status.

Ltac command_converges Hlive :=
  repeat first
    [ apply execute_ftfc_command_converges; exact Hlive
    | apply converges_bind;
      [apply wait_ftfc_ready_converges; exact Hlive|intros _]
    | apply converges_total_bind;
      [first [ apply total_putreg8 | apply total_put_fccob_addr
             | apply total_load_payload ]|intros _] ].

Lemma erase_sector_ends_with_status fuel dest :
  ends_with_status R D (erase_sector_command R D fuel dest).
Proof. unfold erase_sector_command. command_ends_with_status. Qed.

Lemma verify_section_ends_with_status fuel dest :
  ends_with_status R D (verify_section_command R D fuel dest).
Proof. unfold verify_section_command. command_ends_with_status. Qed.

Lemma program_phrase_ends_with_status fuel buf dest src :
  ends_with_status R D (program_phrase_command cfg R D fuel buf dest src).
Proof. unfold program_phrase_command. command_ends_with_status. Qed.

Lemma program_check_ends_with_status fuel buf dest src :
  ends_with_status R D (program_check_command cfg R D fuel buf dest src).
Proof. unfold program_check_command. command_ends_with_status. Qed.

Lemma erase_sector_converges dest :
  live R D ->
  converges D (fun fuel => erase_sector_command R D fuel dest).
Proof. intros Hlive. unfold erase_sector_command. command_converges Hlive. Qed.

Lemma verify_section_converges dest :
  live R D ->
  converges D (fun fuel => verify_section_command R D fuel dest).
Proof.
  intros Hlive. unfold verify_section_command. command_converges Hlive.
Qed.

Lemma program_phrase_converges buf dest src :
  live R D ->
  converges D (fun fuel => program_phrase_command cfg R D fuel buf dest src).
Proof.
  intros Hlive. unfold program_phrase_command. command_converges Hlive.
Qed.

Lemma program_check_converges buf dest src :
  live R D ->
  converges D (fun fuel => program_check_command cfg R D fuel buf dest src).
Proof.
  intros Hlive. unfold program_check_command. command_converges Hlive.
Qed.

(** ** Status decoding *)

Lemma ftfc_failed_true st :
  ftfc_failed R st = true <->
  Z.land st (FTTC_FSTAT_MGSTAT0 R) <> 0 \/
  Z.land st (FTTC_FSTAT_FPVIOL R) <> 0 \/
  Z.land st (FTTC_FSTAT_ACCERR R) <> 0 \/
  Z.land st (FTTC_FSTAT_RDCOLERR R) <> 0.
Proof.
  unfold ftfc_failed, FSTAT_ERROR_MASK.
  rewrite negb_true_iff, Z.eqb_neq, !Z.land_lor_distr_r, !Z.lor_eq_0_iff.
  split.
  - intros H.
    destruct (Z.eq_dec (Z.land st (FTTC_FSTAT_MGSTAT0 R)) 0); [|tauto].
    destruct (Z.eq_dec (Z.land st (FTTC_FSTAT_FPVIOL R)) 0); [|tauto].
    destruct (Z.eq_dec (Z.land st (FTTC_FSTAT_ACCERR R)) 0); [|tauto].
    destruct (Z.eq_dec (Z.land st (FTTC_FSTAT_RDCOLERR R)) 0); tauto.
  - tauto.
Qed.


(** ** Erase *)

Lemma up_progmem_eraseblock_converges block :
  live R D ->
  converges D (fun fuel => up_progmem_eraseblock cfg R D fuel block).
Proof.
  intros Hlive. unfold up_progmem_eraseblock.
  apply converges_bind; [apply erase_sector_converges; exact Hlive|].
  intros st. destruct (ftfc_failed R st); [apply converges_ret|].
  destruct (FTFC_VERIFY_CHECK cfg); [|apply converges_ret].
  apply converges_bind; [apply verify_section_converges; exact Hlive|].
  intros st'. destruct (ftfc_failed R st'); apply converges_ret.
Qed.

Lemma up_progmem_eraseblock_inv fuel block m r m' :
  up_progmem_eraseblock cfg R D fuel block m = Some (r, m') ->
  exists st evs,
    log m' = log m ++ evs ++ [Get8 FSTAT st] /\
    (r = if ftfc_failed R st then - EIO
         else to_ssize (S32K1XX_PROGMEM_BLOCK_SECTOR_SIZE cfg)) /\
    (FTFC_VERIFY_CHECK cfg = false ->
     erase_sector_command R D fuel (erase_dest cfg block) m = Some (st, m')).
Proof.
  unfold up_progmem_eraseblock. intros H.
  apply bind_Some in H. destruct H as (st & m1 & H1 & H).
  pose proof H1 as H1'.
  apply erase_sector_ends_with_status in H1. destruct H1 as [e1 L1].
  destruct (ftfc_failed R st) eqn:F.
  - inversion H; subst. exists st, e1. rewrite F. auto.
  - destruct (FTFC_VERIFY_CHECK cfg).
    + apply bind_Some in H. destruct H as (st' & m2 & H2 & H).
      apply verify_section_ends_with_status in H2. destruct H2 as [e2 L2].
      exists st', (e1 ++ [Get8 FSTAT st] ++ e2). repeat split.
      * assert (m' = m2) by (destruct (ftfc_failed R st'); now inversion H).
        subst m'. rewrite L2, L1. now rewrite <- !app_assoc.
      * destruct (ftfc_failed R st'); now inversion H.
      * discriminate.
    + inversion H; subst. exists st, e1. rewrite F. auto.
Qed.

(** ** The chunk loops of a write *)

Abbreviation WRITE_UNIT := (S32K1XX_PROGMEM_DFLASH_WRITE_UNIT_SIZE cfg).

Lemma wrap32_range z : 0 <= wrap32 z < 4294967296.
Proof. unfold wrap32. apply Z.mod_pos_bound. lia. Qed.

Lemma chunk_loop_converges (command : nat -> Z -> Z -> M D Z) on_error n :
  (forall dest src, converges D (fun fuel => command fuel dest src)) ->
  forall dest src,
    converges D (fun fuel => chunk_loop cfg R D (command fuel) on_error
                             n dest src).
Proof.
  intros Hc. induction n as [|n IH]; intros dest src; simpl.
  - apply converges_ret.
  - apply converges_bind; [apply Hc|].
    intros st. destruct (ftfc_failed R st); [apply converges_ret|apply IH].
Qed.

(** After [k] chunks without error the loop goes on from the [k]-th chunk
    position. *)
Lemma chunk_loop_resume command on_error k :
  forall n dest src m m1,
    0 <= dest < 4294967296 ->
    chunk_loop cfg R D command on_error k dest src m = Some (None, m1) ->
    chunk_loop cfg R D command on_error (k + n) dest src m
    = chunk_loop cfg R D command on_error n
        (wrap32 (dest + Z.of_nat k * WRITE_UNIT))
        (src + Z.of_nat k * WRITE_UNIT) m1.
Proof.
  induction k as [|k IH]; intros n dest src m m1 Hd H.
  - simpl in H. inversion H; subst. simpl.
    rewrite Z.add_0_r, Z.add_0_r, wrap32_small by exact Hd. reflexivity.
  - cbn [chunk_loop] in H. apply bind_Some in H.
    destruct H as (st & m0 & Hc & H).
    cbn [Nat.add chunk_loop]. rewrite (bind_eq _ _ _ _ _ Hc).
    destruct (ftfc_failed R st); [discriminate|].
    rewrite (IH n _ _ _ _ (wrap32_range _) H).
    rewrite wrap32_idem_l, Nat2Z.inj_succ.
    replace (dest + WRITE_UNIT + Z.of_nat k * WRITE_UNIT)
      with (dest + Z.succ (Z.of_nat k) * WRITE_UNIT) by ring.
    replace (src + WRITE_UNIT + Z.of_nat k * WRITE_UNIT)
      with (src + Z.succ (Z.of_nat k) * WRITE_UNIT) by ring.
    reflexivity.
Qed.

(** A command that fails in the [k]-th chunk ends the loop there. *)
Lemma chunk_loop_fails_at command on_error k n dest src m m1 st m2 :
  0 <= dest < 4294967296 ->
  (k < n)%nat ->
  chunk_loop cfg R D command on_error k dest src m = Some (None, m1) ->
  command (wrap32 (dest + Z.of_nat k * WRITE_UNIT))
          (src + Z.of_nat k * WRITE_UNIT) m1 = Some (st, m2) ->
  ftfc_failed R st = true ->
  chunk_loop cfg R D command on_error n dest src m
  = Some (Some on_error, m2).
Proof.
  intros Hd Hk Hpre Hcmd Hfail.
  replace n with (k + S (n - k - 1))%nat by lia.
  rewrite (chunk_loop_resume _ _ _ _ _ _ _ _ Hd Hpre).
  cbn [chunk_loop]. rewrite (bind_eq _ _ _ _ _ Hcmd), Hfail. reflexivity.
Qed.

Lemma double_write_check_total addr buf :
  total D (double_write_check cfg D addr buf).
Proof.
  unfold double_write_check.
  destruct (SMART_FS_DOUBLE_WRITE_WORKAROUND cfg); [|apply total_ret].
  intros m. rewrite (bind_eq _ _ _ _ _ (eq_refl : load32 D addr m = _)).
  destruct (_ =? _); [|apply total_ret].
  eexists.
  rewrite (bind_eq _ _ _ _ _ (eq_refl : load32 D addr _ = _)).
  reflexivity.
Qed.

(** On a controller that completes its commands a write always returns. *)
Lemma up_progmem_write_converges addr buf count :
  live R D ->
  converges D (fun fuel => up_progmem_write cfg R D fuel addr buf count).
Proof.
  intros Hlive. unfold up_progmem_write.
  destruct (negb _); [apply converges_ret|].
  apply converges_total_bind; [apply double_write_check_total|].
  intros same. destruct same; [apply converges_ret|].
  apply converges_bind.
  { apply (chunk_loop_converges
             (fun fuel => program_phrase_command cfg R D fuel buf)).
    intros dest src. apply program_phrase_converges. exact Hlive. }
  intros [e|]; [apply converges_ret|].
  destruct (FTFC_VERIFY_CHECK cfg); [|apply converges_ret].
  apply converges_bind.
  { apply (chunk_loop_converges
             (fun fuel => program_check_command cfg R D fuel buf)).
    intros dest src. apply program_check_converges. exact Hlive. }
  intros [e|]; apply converges_ret.
Qed.

(** ** The erased-check scan *)

(** The scan leaves the loop with [i] advanced by the number [c] of 0xFF
    bytes it met; it has loaded those bytes and, unless the page ended,
    the byte that stopped it. *)
Lemma scan_erased_spec p n :
  forall i m, exists c,
    (c <= n)%nat /\
    scan_erased D p n i m
    = Some (i + Z.of_nat c,
            {| dev := dev m;
               log := log m ++ loads D (dev m) (p + i) (Nat.min (S c) n) |}) /\
    (forall j, (j < c)%nat ->
       flash_byte D (dev m) (p + i + Z.of_nat j) = 255) /\
    ((c < n)%nat -> flash_byte D (dev m) (p + i + Z.of_nat c) <> 255).
Proof.
  induction n as [|n IH]; intros i m.
  - exists O. repeat split; try lia.
    simpl. rewrite Z.add_0_r, app_nil_r. destruct m; reflexivity.
  - cbn [scan_erased]. rewrite (bind_eq _ _ _ _ _ (load8_Some (p + i) m)).
    destruct (Z.eqb_spec (flash_byte D (dev m) (p + i)) 255) as [E|E];
      cbn [negb].
    + destruct (IH (i + 1)
                  {| dev := dev m;
                     log := log m ++ [Load8 (p + i)
                                        (flash_byte D (dev m) (p + i))] |})
        as (c & Hc & Hrun & Herased & Hstop).
      cbn [dev log] in *.
      exists (S c). repeat split.
      * lia.
      * rewrite Hrun.
        replace (Nat.min (S (S c)) (S n)) with (S (Nat.min (S c) n)) by lia.
        cbn [loads]. rewrite <- app_assoc. cbn [app].
        replace (p + (i + 1)) with (p + i + 1) by lia.
        replace (i + 1 + Z.of_nat c) with (i + Z.of_nat (S c)) by lia.
        reflexivity.
      * intros [|j] Hj.
        -- now rewrite Z.add_0_r.
        -- replace (p + i + Z.of_nat (S j))
             with (p + (i + 1) + Z.of_nat j) by lia.
           apply Herased. lia.
      * intros Hlt.
        replace (p + i + Z.of_nat (S c))
          with (p + (i + 1) + Z.of_nat c) by lia.
        apply Hstop. lia.
    + exists O. repeat split.
      * lia.
      * unfold ret. cbn [Z.of_nat Nat.min loads]. now rewrite Z.add_0_r.
      * intros j Hj. lia.
      * intros _. now rewrite Z.add_0_r.
Qed.

(** ** Only the low 24 bits of the destination reach the controller *)

Lemma same_low24_bits d d' i :
  same_low24 d d' -> 0 <= i < 24 -> Z.testbit d i = Z.testbit d' i.
Proof.
  unfold same_low24. change 16777216 with (2 ^ 24). intros H Hi.
  rewrite <- (Z.mod_pow2_bits_low d 24 i) by lia.
  rewrite <- (Z.mod_pow2_bits_low d' 24 i) by lia.
  now rewrite H.
Qed.

Lemma to_uint8_shiftr_low24 d d' s :
  same_low24 d d' -> 0 <= s <= 16 ->
  to_uint8 (Z.shiftr d s) = to_uint8 (Z.shiftr d' s).
Proof.
  intros H Hs. unfold to_uint8. change 256 with (2 ^ 8).
  apply Z.bits_inj'. intros n Hn.
  destruct (Z.ltb_spec n 8).
  - rewrite !Z.mod_pow2_bits_low, !Z.shiftr_spec by lia.
    apply same_low24_bits; [exact H|lia].
  - rewrite !Z.mod_pow2_bits_high by lia. reflexivity.
Qed.

Lemma put_fccob_addr_low24 d d' :
  same_low24 d d' -> put_fccob_addr R D d = put_fccob_addr R D d'.
Proof.
  intros H. unfold put_fccob_addr, fccob1, fccob2, fccob3.
  rewrite (to_uint8_shiftr_low24 d d' 16 H) by lia.
  rewrite (to_uint8_shiftr_low24 d d' 8 H) by lia.
  pose proof (to_uint8_shiftr_low24 d d' 0 H ltac:(lia)) as H0.
  rewrite !Z.shiftr_0_r in H0. rewrite H0. reflexivity.
Qed.

Lemma program_phrase_low24 fuel buf d d' src :
  same_low24 d d' ->
  program_phrase_command cfg R D fuel buf d src
  = program_phrase_command cfg R D fuel buf d' src.
Proof.
  intros H. unfold program_phrase_command.
  now rewrite (put_fccob_addr_low24 d d' H).
Qed.

Lemma program_check_low24 fuel buf d d' src :
  same_low24 d d' ->
  program_check_command cfg R D fuel buf d src
  = program_check_command cfg R D fuel buf d' src.
Proof.
  intros H. unfold program_check_command.
  now rewrite (put_fccob_addr_low24 d d' H).
Qed.

Lemma same_low24_wrap32_add d d' k :
  same_low24 d d' -> same_low24 (wrap32 (d + k)) (wrap32 (d' + k)).
Proof.
  unfold same_low24, wrap32. intros H.
  rewrite !(Z.mod_mod_divide _ 4294967296 16777216)
    by (exists 256; reflexivity).
  rewrite (Zplus_mod d), (Zplus_mod d'), H. reflexivity.
Qed.

Lemma chunk_loop_low24 (command : Z -> Z -> M D Z) on_error n :
  (forall d d' src, same_low24 d d' -> command d src = command d' src) ->
  forall d d' src m,
    same_low24 d d' ->
    chunk_loop cfg R D command on_error n d src m
    = chunk_loop cfg R D command on_error n d' src m.
Proof.
  intros Hc. induction n as [|n IH]; intros d d' src m H.
  - reflexivity.
  - cbn [chunk_loop]. rewrite (Hc d d' src H). unfold bind.
    destruct (command d' src m) as [[st m1]|]; [|reflexivity].
    destruct (ftfc_failed R st); [reflexivity|].
    apply IH. apply same_low24_wrap32_add. exact H.
Qed.

(** ** Properties of the driver *)

(** C1.  Converting a page index of the region to its base address and
    that address back to a page index recovers the index:
    [up_progmem_getpage (up_progmem_getaddress p) = p] for every
    [p] in [0, page_count). *)
Theorem getpage_getaddress_roundtrip (p : Z) :
  region_fits cfg ->
  0 <= p < S32K1XX_PROGMEM_PAGE_COUNT cfg ->
  up_progmem_getpage cfg (up_progmem_getaddress cfg p) = p.
Proof.
  intros (Hs & Hp & Hfit & Hcnt) Hr.
  unfold up_progmem_getpage, up_progmem_getaddress, strip_start_addr.
  assert (Hb : 0 <= p * S32K1XX_PROGMEM_PAGE_SIZE cfg
               <= (S32K1XX_PROGMEM_PAGE_COUNT cfg - 1)
                  * S32K1XX_PROGMEM_PAGE_SIZE cfg) by nia.
  rewrite (wrap32_small (_ + _)) by nia.
  destruct (Z.leb_spec (S32K1XX_PROGMEM_START_ADDR cfg)
              (S32K1XX_PROGMEM_START_ADDR cfg
               + p * S32K1XX_PROGMEM_PAGE_SIZE cfg)); [|lia].
  replace (S32K1XX_PROGMEM_START_ADDR cfg
           + p * S32K1XX_PROGMEM_PAGE_SIZE cfg
           - S32K1XX_PROGMEM_START_ADDR cfg)
    with (p * S32K1XX_PROGMEM_PAGE_SIZE cfg) by lia.
  rewrite wrap32_small by nia.
  rewrite Z.div_mul by lia.
  apply to_ssize_small. lia.
Qed.

(** C2.  When [count] is not an exact multiple of the write unit,
    [up_progmem_write] returns -EINVAL at once: the machine, and with it
    the log of bus accesses, is left exactly as it was, whatever the
    address, the buffer and the poll budget. *)
Theorem write_misaligned_count_einval
  (fuel : nat) (addr : Z) (buf : buffer) (count : Z) (m : machine') :
  count mod S32K1XX_PROGMEM_DFLASH_WRITE_UNIT_SIZE cfg <> 0 ->
  up_progmem_write cfg R D fuel addr buf count m = Some (- EINVAL, m).
Proof.
  intros H. unfold up_progmem_write.
  apply Z.eqb_neq in H. rewrite H. reflexivity.
Qed.


(** C4.  With FTFC_VERIFY_CHECK defined: once every chunk has been
    programmed without error and the program-check commands of the first
    [k] chunks have passed, a program-check command that reports an error
    status for chunk [k] makes [up_progmem_write] return the full requested
    [count], not an error, in the machine state in which that command
    ended. *)
Theorem write_verify_failure_returns_count
  (fuel : nat) (addr : Z) (buf : buffer) (count : Z) (k : nat)
  (m m0 m1 m2 m3 : machine') (st : Z) :
  let off := strip_start_addr cfg addr in
  let dest := wrap32 (off + 8388608) in
  let chunks := Z.to_nat (count / WRITE_UNIT) in
  FTFC_VERIFY_CHECK cfg = true ->
  0 <= count < 2147483648 ->
  count mod WRITE_UNIT = 0 ->
  (k < chunks)%nat ->
  double_write_check cfg D off buf m = Some (false, m0) ->
  chunk_loop cfg R D (program_phrase_command cfg R D fuel buf) (- EIO)
    chunks dest 0 m0 = Some (None, m1) ->
  chunk_loop cfg R D (program_check_command cfg R D fuel buf)
    (to_ssize count) k dest 0 m1 = Some (None, m2) ->
  program_check_command cfg R D fuel buf
    (wrap32 (dest + Z.of_nat k * WRITE_UNIT)) (Z.of_nat k * WRITE_UNIT) m2
  = Some (st, m3) ->
  ftfc_failed R st = true ->
  up_progmem_write cfg R D fuel addr buf count m = Some (count, m3).
Proof.
  intros off dest chunks Hv Hc Hmod Hk Hdw Hprog Hpre Hcmd Hfail.
  unfold up_progmem_write. fold off.
  apply Z.eqb_eq in Hmod. rewrite Hmod. cbn [negb].
  rewrite (bind_eq _ _ _ _ _ Hdw). fold dest. fold chunks.
  rewrite (bind_eq _ _ _ _ _ Hprog). rewrite Hv.
  rewrite (bind_eq _ _ _ _ _
             (chunk_loop_fails_at _ (to_ssize count) k chunks dest 0 m1 m2
                st m3 (wrap32_range _) Hk Hpre Hcmd Hfail)).
  rewrite to_ssize_small by exact Hc. reflexivity.
Qed.

(** C5.  In a write of several chunks, once the chunks before the [k]-th
    have been programmed without error, a program-phrase command for chunk
    [k] that completes with FPVIOL set makes [up_progmem_write] return -EIO
    in the very machine state in which that command ended: the read of the
    failing status is the last bus access of the call and no command is
    issued for a later chunk. *)
Theorem write_stops_at_protection_violation
  (fuel : nat) (addr : Z) (buf : buffer) (count : Z) (k : nat)
  (m m0 m1 m2 : machine') (st : Z) :
  let off := strip_start_addr cfg addr in
  let dest := wrap32 (off + 8388608) in
  count mod WRITE_UNIT = 0 ->
  (k < Z.to_nat (count / WRITE_UNIT))%nat ->
  double_write_check cfg D off buf m = Some (false, m0) ->
  chunk_loop cfg R D (program_phrase_command cfg R D fuel buf) (- EIO)
    k dest 0 m0 = Some (None, m1) ->
  program_phrase_command cfg R D fuel buf
    (wrap32 (dest + Z.of_nat k * WRITE_UNIT)) (Z.of_nat k * WRITE_UNIT) m1
  = Some (st, m2) ->
  Z.land st (FTTC_FSTAT_FPVIOL R) <> 0 ->
  up_progmem_write cfg R D fuel addr buf count m = Some (- EIO, m2) /\
  exists evs, log m2 = log m1 ++ evs ++ [Get8 FSTAT st].
Proof.
  intros off dest Hmod Hk Hdw Hpre Hcmd Hviol.
  split; [|exact (program_phrase_ends_with_status _ _ _ _ _ _ _ Hcmd)].
  assert (Hfail : ftfc_failed R st = true).
  { apply ftfc_failed_true. right. left. exact Hviol. }
  unfold up_progmem_write. fold off.
  apply Z.eqb_eq in Hmod. rewrite Hmod. cbn [negb].
  rewrite (bind_eq _ _ _ _ _ Hdw). fold dest.
  rewrite (bind_eq _ _ _ _ _
             (chunk_loop_fails_at _ (- EIO) k _ dest 0 m0 m1
                st m2 (wrap32_range _) Hk Hpre Hcmd Hfail)).
  reflexivity.
Qed.

(** C6.  On a controller that completes its commands the executor
    returns, and its bus accesses are, in order: one read of FSTAT, one
    store to FSTAT of the value read with the completion bit set (the
    launch: under the write-one-to-clear convention this puts the
    completion flag at 0, so at least one poll sees it clear), polls of
    FSTAT that all see the completion flag clear, the poll that sees it
    set again, and then exactly one more read of FSTAT, whose value is the
    status returned. *)
Theorem execute_launch_wait_read_once (m : machine') :
  live R D ->
  0 < CCIF < 256 ->
  exists fuel0 v0 polls vr status m',
    (forall fuel, (fuel0 <= fuel)%nat ->
       execute_ftfc_command R D fuel m = Some (status, m')) /\
    log m' = log m
             ++ [Get8 FSTAT v0; Put8 (to_uint8 (Z.lor v0 CCIF)) FSTAT]
             ++ map (Get8 FSTAT) polls
             ++ [Get8 FSTAT vr; Get8 FSTAT status] /\
    Z.land (to_uint8 (Z.lor v0 CCIF)) CCIF = CCIF /\
    Forall (ccif_clear R) polls /\
    Z.land vr CCIF <> 0 /\
    (launch_clears_ccif R D -> polls <> []).
Proof.
  intros Hlive HC.
  destruct (execute_ftfc_command_converges Hlive m)
    as (fuel0 & [status m'] & Hrun).
  destruct (execute_ftfc_command_inv fuel0 m status m'
              (Hrun fuel0 (Nat.le_refl _)))
    as (v0 & polls & vr & L & Hall & Hr & _ & Hw).
  exists fuel0, v0, polls, vr, status, m'. repeat split; try assumption.
  - apply launch_value_sets_ccif. exact HC.
  - apply Hw. exact HC.
Qed.

(** C10.  The executor is the same computation as the one that returns
    the last read of FSTAT with no case distinction; on a controller that
    completes its commands it returns that raw register byte, whether or
    not the byte carries an error bit, and never an error code. *)
Theorem execute_returns_raw_status :
  (forall fuel m,
     execute_ftfc_command R D fuel m = execute_ftfc_command_raw R D fuel m) /\
  (live R D ->
   forall m, exists fuel0 status m' evs,
     (forall fuel, (fuel0 <= fuel)%nat ->
        execute_ftfc_command R D fuel m = Some (status, m')) /\
     log m' = log m ++ evs ++ [Get8 FSTAT status] /\
     0 <= status < 256).
Proof.
  split; [exact execute_ftfc_command_raw_eq|].
  intros Hlive m.
  destruct (execute_ftfc_command_converges Hlive m)
    as (fuel0 & [status m'] & Hrun).
  pose proof (Hrun fuel0 (Nat.le_refl _)) as H0.
  destruct (execute_ends_with_status _ _ _ _ H0) as [evs L].
  apply execute_ftfc_command_inv in H0.
  destruct H0 as (_ & _ & _ & _ & _ & _ & Hrange & _).
  exists fuel0, status, m', evs. auto.
Qed.

(** C7.  For a page index at or beyond the page count,
    [up_progmem_ispageerased] returns -EFAULT and leaves the machine as it
    was: no byte of the array is loaded.  The other operations that take
    an index do not look at its range: the page size and the erase size are
    the same for every index, the address of a page is computed for every
    index, and an erase of any block index goes to the controller and ends
    with -EIO or the block size. *)
Theorem ispageerased_validates_index :
  (forall page m,
     S32K1XX_PROGMEM_PAGE_COUNT cfg <= page ->
     up_progmem_ispageerased cfg D page m = Some (- EFAULT, m)) /\
  (forall p q, up_progmem_pagesize cfg p = up_progmem_pagesize cfg q) /\
  (forall b b', up_progmem_erasesize cfg b = up_progmem_erasesize cfg b') /\
  (forall page,
     up_progmem_getaddress cfg page
     = wrap32 (up_progmem_getaddress cfg 0
               + page * S32K1XX_PROGMEM_PAGE_SIZE cfg)) /\
  (live R D ->
   0 <= S32K1XX_PROGMEM_BLOCK_SECTOR_SIZE cfg < 2147483648 ->
   forall block m, exists fuel0 r m',
     (forall fuel, (fuel0 <= fuel)%nat ->
        up_progmem_eraseblock cfg R D fuel block m = Some (r, m')) /\
     (r = - EIO \/ r = S32K1XX_PROGMEM_BLOCK_SECTOR_SIZE cfg) /\
     log m' <> log m).
Proof.
  split; [|split; [|split; [|split]]].
  - intros page m H. unfold up_progmem_ispageerased.
    apply Z.leb_le in H. rewrite H. reflexivity.
  - intros p q. reflexivity.
  - intros b b'. reflexivity.
  - intros page. unfold up_progmem_getaddress.
    rewrite wrap32_idem_l. f_equal. ring.
  - intros Hlive Hbs block m.
    destruct (up_progmem_eraseblock_converges block Hlive m)
      as (fuel0 & [r m'] & Hrun).
    destruct (up_progmem_eraseblock_inv fuel0 block m r m'
                (Hrun fuel0 (Nat.le_refl _))) as (st & evs & L & Hr & _).
    exists fuel0, r, m'. repeat split.
    + exact Hrun.
    + destruct (ftfc_failed R st); [left; exact Hr|right].
      rewrite Hr. apply to_ssize_small. lia.
    + intros E. rewrite E in L.
      rewrite <- (app_nil_r (log m)) in L at 1.
      apply app_inv_head in L. symmetry in L.
      apply app_eq_nil in L. destruct L as [_ L]. discriminate.
Qed.

(** C8 (as amended).  For a page index below the page count the scan
    starts at the base address of the page, loads its bytes in order and
    stops at the first byte that is not 0xFF; with [i] the number of 0xFF
    bytes met (the offset of that first byte, or the page size when there
    is none) the result is [page_size - i].  It is zero exactly when every
    byte of the page is 0xFF; a positive result is the page size minus the
    offset of the first non-erased byte. *)
Theorem ispageerased_scan_result (page : Z) (m : machine') :
  page < S32K1XX_PROGMEM_PAGE_COUNT cfg ->
  0 <= S32K1XX_PROGMEM_PAGE_SIZE cfg < 2147483648 ->
  let size := S32K1XX_PROGMEM_PAGE_SIZE cfg in
  let base := up_progmem_getaddress cfg page in
  exists i,
    0 <= i <= size /\
    up_progmem_ispageerased cfg D page m
    = Some (size - i,
            {| dev := dev m;
               log := log m
                      ++ loads D (dev m) base (Z.to_nat (Z.min (i + 1) size))
            |}) /\
    (forall j, 0 <= j < i -> flash_byte D (dev m) (base + j) = 255) /\
    (i < size -> flash_byte D (dev m) (base + i) <> 255) /\
    (size - i = 0 <->
     forall j, 0 <= j < size -> flash_byte D (dev m) (base + j) = 255).
Proof.
  intros Hpage Hsize size base.
  destruct (scan_erased_spec base (Z.to_nat size) 0 m)
    as (c & Hc & Hrun & Herased & Hstop).
  rewrite Z.add_0_r in *.
  exists (Z.of_nat c).
  assert (Hi : 0 <= Z.of_nat c <= size) by lia.
  assert (Hall : forall j, 0 <= j < Z.of_nat c ->
                   flash_byte D (dev m) (base + j) = 255).
  { intros j Hj. rewrite <- (Z2Nat.id j) by lia. apply Herased. lia. }
  split; [exact Hi|]. split; [|split; [exact Hall|split; [|split]]].
  - unfold up_progmem_ispageerased.
    apply Z.ltb_lt in Hpage. rewrite Z.leb_antisym, Hpage. cbn [negb].
    fold base. fold size. rewrite (bind_eq _ _ _ _ _ Hrun).
    unfold ret. rewrite Z.add_0_l.
    rewrite to_ssize_small by (unfold size in *; lia).
    replace (Z.to_nat (Z.min (Z.of_nat c + 1) size))
      with (Nat.min (S c) (Z.to_nat size)) by lia.
    reflexivity.
  - intros Hlt. apply Hstop. lia.
  - intros Hz j Hj. apply Hall. lia.
  - intros Hclean.
    destruct (Z.eq_dec (size - Z.of_nat c) 0) as [E|E]; [exact E|].
    exfalso. apply Hstop; [lia|]. apply Hclean. lia.
Qed.

(** C9 (as amended).  [up_progmem_write] takes its target absolute or
    relative to the start of the region: for an absolute address [addr] at
    or above the
    start address, [write addr] and [write (addr - start)] are the same
    computation, so they perform the same bus accesses and return the same
    result on every machine.  This holds when the offset [addr - start] is
    itself below the start address (every address of the region), and for
    every [addr] at all when the start address is a multiple of 2^24 and
    the double-write workaround is not compiled in. *)
Theorem write_absolute_or_relative
  (fuel : nat) (addr : Z) (buf : buffer) (count : Z) (m : machine') :
  0 <= S32K1XX_PROGMEM_START_ADDR cfg <= addr ->
  addr < 4294967296 ->
  addr - S32K1XX_PROGMEM_START_ADDR cfg < S32K1XX_PROGMEM_START_ADDR cfg \/
  (SMART_FS_DOUBLE_WRITE_WORKAROUND cfg = false /\
   S32K1XX_PROGMEM_START_ADDR cfg mod 16777216 = 0) ->
  up_progmem_write cfg R D fuel addr buf count m
  = up_progmem_write cfg R D fuel
      (addr - S32K1XX_PROGMEM_START_ADDR cfg) buf count m.
Proof.
  intros Hs Hmax Hcase.
  unfold up_progmem_write, strip_start_addr.
  destruct (Z.leb_spec (S32K1XX_PROGMEM_START_ADDR cfg) addr); [|lia].
  rewrite (wrap32_small (addr - _)) by lia.
  destruct (Z.leb_spec (S32K1XX_PROGMEM_START_ADDR cfg)
              (addr - S32K1XX_PROGMEM_START_ADDR cfg)) as [Hge|Hlt];
    [|reflexivity].
  destruct Hcase as [Hin|[Hoff Halign]]; [lia|].
  destruct (negb _); [reflexivity|].
  unfold double_write_check. rewrite Hoff.
  rewrite !(bind_eq _ _ _ _ _ (eq_refl : ret false m = Some (false, m))).
  rewrite (wrap32_small (addr - _ - _)) by lia.
  set (d := wrap32 (addr - S32K1XX_PROGMEM_START_ADDR cfg + 8388608)).
  set (d' := wrap32 (addr - S32K1XX_PROGMEM_START_ADDR cfg
                     - S32K1XX_PROGMEM_START_ADDR cfg + 8388608)).
  assert (Hdd : same_low24 d d').
  { unfold d, d', same_low24, wrap32.
    rewrite !(Z.mod_mod_divide _ 4294967296 16777216)
      by (exists 256; reflexivity).
    apply Z.mod_divide in Halign; [|lia]. destruct Halign as [q Hq].
    rewrite Hq.
    replace (addr - q * 16777216 + 8388608)
      with (addr - q * 16777216 - q * 16777216 + 8388608 + q * 16777216)
      by ring.
    apply Z.mod_add. lia. }
  unfold bind.
  rewrite (chunk_loop_low24 _ (- EIO) _
             (program_phrase_low24 fuel buf) d d' 0 m Hdd).
  destruct (chunk_loop _ _ _ _ _ _ d' 0 m) as [[[e|] m1]|]; try reflexivity.
  destruct (FTFC_VERIFY_CHECK cfg); [|reflexivity].
  rewrite (chunk_loop_low24 _ (to_ssize count) _
             (program_check_low24 fuel buf) d d' 0 m1 Hdd).
  reflexivity.
Qed.

(** ** Further properties of the geometry functions *)

(** X1.  Every address inside page [p] of the region, not only its base,
    is mapped back to [p]:
    [up_progmem_getpage (up_progmem_getaddress p + off) = p] for
    [0 <= off < page_size]. *)
Theorem getpage_inside_page (p off : Z) :
  region_fits cfg ->
  0 <= p < S32K1XX_PROGMEM_PAGE_COUNT cfg ->
  0 <= off < S32K1XX_PROGMEM_PAGE_SIZE cfg ->
  up_progmem_getpage cfg (up_progmem_getaddress cfg p + off) = p.
Proof.
  intros (Hs & Hp & Hfit & Hcnt) Hr Hoff.
  unfold up_progmem_getpage, up_progmem_getaddress, strip_start_addr.
  assert (Hb : 0 <= p * S32K1XX_PROGMEM_PAGE_SIZE cfg
               <= (S32K1XX_PROGMEM_PAGE_COUNT cfg - 1)
                  * S32K1XX_PROGMEM_PAGE_SIZE cfg) by nia.
  rewrite (wrap32_small (_ + _ * _)) by nia.
  destruct (Z.leb_spec (S32K1XX_PROGMEM_START_ADDR cfg)
              (S32K1XX_PROGMEM_START_ADDR cfg
               + p * S32K1XX_PROGMEM_PAGE_SIZE cfg + off)); [|lia].
  replace (S32K1XX_PROGMEM_START_ADDR cfg
           + p * S32K1XX_PROGMEM_PAGE_SIZE cfg + off
           - S32K1XX_PROGMEM_START_ADDR cfg)
    with (off + p * S32K1XX_PROGMEM_PAGE_SIZE cfg) by lia.
  rewrite wrap32_small by nia.
  rewrite Z.div_add by lia. rewrite Z.div_small by lia.
  apply to_ssize_small. lia.
Qed.

(** X2.  For an absolute address of the region the page found by
    [up_progmem_getpage] is a valid index, and the base address that
    [up_progmem_getaddress] gives for it is page-aligned from the start of
    the region, not above the address, and less than one page below it. *)
Theorem getaddress_getpage_floor (addr : Z) :
  region_fits cfg ->
  S32K1XX_PROGMEM_START_ADDR cfg <= addr
  < S32K1XX_PROGMEM_START_ADDR cfg
    + S32K1XX_PROGMEM_PAGE_COUNT cfg * S32K1XX_PROGMEM_PAGE_SIZE cfg ->
  let page := up_progmem_getpage cfg addr in
  let base := up_progmem_getaddress cfg page in
  0 <= page < S32K1XX_PROGMEM_PAGE_COUNT cfg /\
  base <= addr < base + S32K1XX_PROGMEM_PAGE_SIZE cfg /\
  (base - S32K1XX_PROGMEM_START_ADDR cfg)
    mod S32K1XX_PROGMEM_PAGE_SIZE cfg = 0.
Proof.
  intros (Hs & Hp & Hfit & Hcnt) Ha page base.
  set (a := addr - S32K1XX_PROGMEM_START_ADDR cfg).
  set (ps := S32K1XX_PROGMEM_PAGE_SIZE cfg) in *.
  assert (Hq : 0 <= a / ps < S32K1XX_PROGMEM_PAGE_COUNT cfg).
  { split; [apply Z.div_pos; unfold a; lia|].
    apply Z.div_lt_upper_bound; [lia|]. unfold a. lia. }
  assert (Hdm : a = ps * (a / ps) + a mod ps) by (apply Z.div_mod; lia).
  assert (Hm : 0 <= a mod ps < ps) by (apply Z.mod_pos_bound; lia).
  assert (Hpage : page = a / ps).
  { unfold page, up_progmem_getpage, strip_start_addr.
    destruct (Z.leb_spec (S32K1XX_PROGMEM_START_ADDR cfg) addr); [|lia].
    fold a. rewrite wrap32_small by (unfold a; lia).
    fold ps. apply to_ssize_small. lia. }
  assert (Hbase : base = S32K1XX_PROGMEM_START_ADDR cfg + (a / ps) * ps).
  { unfold base, up_progmem_getaddress. rewrite Hpage. fold ps.
    apply wrap32_small. unfold a in *. nia. }
  rewrite Hpage. split; [exact Hq|]. split.
  - rewrite Hbase. unfold a in *. nia.
  - rewrite Hbase.
    replace (S32K1XX_PROGMEM_START_ADDR cfg + a / ps * ps
             - S32K1XX_PROGMEM_START_ADDR cfg) with (a / ps * ps) by lia.
    apply Z.mod_mul. lia.
Qed.

(** X3.  [up_progmem_getpage] takes an address with or without the flash
    offset: an offset below the start address and the absolute address made
    from it give the same page. *)
Theorem getpage_absolute_or_relative (off : Z) :
  0 <= off < S32K1XX_PROGMEM_START_ADDR cfg ->
  S32K1XX_PROGMEM_START_ADDR cfg + off < 4294967296 ->
  up_progmem_getpage cfg (S32K1XX_PROGMEM_START_ADDR cfg + off)
  = up_progmem_getpage cfg off.
Proof.
  intros Hoff Hmax. unfold up_progmem_getpage, strip_start_addr.
  destruct (Z.leb_spec (S32K1XX_PROGMEM_START_ADDR cfg)
              (S32K1XX_PROGMEM_START_ADDR cfg + off)); [|lia].
  destruct (Z.leb_spec (S32K1XX_PROGMEM_START_ADDR cfg) off); [lia|].
  replace (S32K1XX_PROGMEM_START_ADDR cfg + off
           - S32K1XX_PROGMEM_START_ADDR cfg) with off by lia.
  rewrite wrap32_small by lia. reflexivity.
Qed.

(** X4.  [up_progmem_getpage] has no error path: for every [size_t]
    address, inside the region or not, the result is the non-negative
    quotient of the stripped address by the page size, never a negative
    error value. *)
Theorem getpage_never_negative (addr : Z) :
  0 <= addr < 4294967296 ->
  1 < S32K1XX_PROGMEM_PAGE_SIZE cfg ->
  up_progmem_getpage cfg addr
  = strip_start_addr cfg addr / S32K1XX_PROGMEM_PAGE_SIZE cfg /\
  0 <= up_progmem_getpage cfg addr.
Proof.
  intros Ha Hp. unfold up_progmem_getpage.
  assert (Hs : 0 <= strip_start_addr cfg addr < 4294967296).
  { unfold strip_start_addr.
    destruct (_ <=? _); [apply wrap32_range|exact Ha]. }
  assert (Hq : 0 <= strip_start_addr cfg addr
                    / S32K1XX_PROGMEM_PAGE_SIZE cfg < 2147483648).
  { split; [apply Z.div_pos; lia|].
    apply Z.div_lt_upper_bound; lia. }
  rewrite to_ssize_small by exact Hq. split; [reflexivity|lia].
Qed.

(** ** The address bytes of a command *)

(** X5.  The three bytes taken from the address union are each within a
    byte and, most significant first, spell the low 24 bits of the
    address: bits 24 to 31 never reach the controller. *)
Theorem fccob_bytes_encode_low24 (d : Z) :
  0 <= fccob1 d < 256 /\ 0 <= fccob2 d < 256 /\ 0 <= fccob3 d < 256 /\
  65536 * fccob1 d + 256 * fccob2 d + fccob3 d = d mod 16777216.
Proof.
  unfold fccob1, fccob2, fccob3.
  split; [apply to_uint8_range|]. split; [apply to_uint8_range|].
  split; [apply to_uint8_range|].
  assert (Hr : 0 <= d mod 16777216 < 16777216)
    by (apply Z.mod_pos_bound; lia).
  assert (Hsame : same_low24 d (d mod 16777216)).
  { unfold same_low24. now rewrite Z.mod_mod by lia. }
  rewrite (to_uint8_shiftr_low24 _ _ 16 Hsame) by lia.
  rewrite (to_uint8_shiftr_low24 _ _ 8 Hsame) by lia.
  pose proof (to_uint8_shiftr_low24 _ _ 0 Hsame ltac:(lia)) as H0.
  rewrite !Z.shiftr_0_r in H0. rewrite H0.
  set (r := d mod 16777216) in *.
  rewrite !Z.shiftr_div_pow2 by lia. unfold to_uint8.
  change (2 ^ 16) with 65536. change (2 ^ 8) with 256.
  pose proof (Z.div_mod r 256 ltac:(lia)) as E0.
  pose proof (Z.mod_pos_bound r 256 ltac:(lia)) as B0.
  pose proof (Z.div_mod (r / 256) 256 ltac:(lia)) as E1.
  pose proof (Z.mod_pos_bound (r / 256) 256 ltac:(lia)) as B1.
  assert (E2 : r / 65536 = r / 256 / 256)
    by (rewrite Z.div_div by lia; reflexivity).
  rewrite E2.
  rewrite (Z.mod_small (r / 256 / 256) 256).
  - lia.
  - split; [apply Z.div_pos; [apply Z.div_pos|]; lia|].
    apply Z.div_lt_upper_bound; [lia|].
    apply Z.div_lt_upper_bound; lia.
Qed.

(** X6.  When the start address is a multiple of 2^24, erasing block [b]
    and writing at the absolute address of its first byte stage the same
    three address bytes: the two operations name the same place to the
    controller although [up_progmem_eraseblock] subtracts the start
    address from a block offset and [up_progmem_write] from an absolute
    address. *)
Theorem erase_and_write_address_agree (block : Z) :
  S32K1XX_PROGMEM_START_ADDR cfg mod 16777216 = 0 ->
  0 <= S32K1XX_PROGMEM_START_ADDR cfg ->
  0 <= block * S32K1XX_PROGMEM_BLOCK_SECTOR_SIZE cfg ->
  S32K1XX_PROGMEM_START_ADDR cfg
  + block * S32K1XX_PROGMEM_BLOCK_SECTOR_SIZE cfg < 4294967296 ->
  let write_dest :=
    wrap32 (strip_start_addr cfg
              (S32K1XX_PROGMEM_START_ADDR cfg
               + block * S32K1XX_PROGMEM_BLOCK_SECTOR_SIZE cfg)
            + 8388608) in
  fccob1 (erase_dest cfg block) = fccob1 write_dest /\
  fccob2 (erase_dest cfg block) = fccob2 write_dest /\
  fccob3 (erase_dest cfg block) = fccob3 write_dest.
Proof.
  intros Halign Hs Hb Hmax write_dest.
  assert (Hsame : same_low24 (erase_dest cfg block) write_dest).
  { unfold write_dest, erase_dest, strip_start_addr, same_low24, wrap32.
    destruct (Z.leb_spec (S32K1XX_PROGMEM_START_ADDR cfg)
                (S32K1XX_PROGMEM_START_ADDR cfg
                 + block * S32K1XX_PROGMEM_BLOCK_SECTOR_SIZE cfg)); [|lia].
    replace (S32K1XX_PROGMEM_START_ADDR cfg
             + block * S32K1XX_PROGMEM_BLOCK_SECTOR_SIZE cfg
             - S32K1XX_PROGMEM_START_ADDR cfg)
      with (block * S32K1XX_PROGMEM_BLOCK_SECTOR_SIZE cfg) by lia.
    rewrite (Z.mod_small (block * _) 4294967296) by lia.
    rewrite !(Z.mod_mod_divide _ 4294967296 16777216)
      by (exists 256; reflexivity).
    apply Z.mod_divide in Halign; [|lia]. destruct Halign as [q Hq].
    rewrite Hq.
    replace (block * S32K1XX_PROGMEM_BLOCK_SECTOR_SIZE cfg + 8388608
             - q * 16777216)
      with (block * S32K1XX_PROGMEM_BLOCK_SECTOR_SIZE cfg + 8388608
            + (- q) * 16777216) by ring.
    apply Z.mod_add. lia. }
  unfold fccob1, fccob2, fccob3. repeat split.
  - apply to_uint8_shiftr_low24; [exact Hsame|lia].
  - apply to_uint8_shiftr_low24; [exact Hsame|lia].
  - pose proof (to_uint8_shiftr_low24 _ _ 0 Hsame ltac:(lia)) as H0.
    now rewrite !Z.shiftr_0_r in H0.
Qed.

(** ** Results and termination of erase and write *)

Lemma chunk_loop_early_result command on_error n :
  forall dest src m r m',
    chunk_loop cfg R D command on_error n dest src m = Some (Some r, m') ->
    r = on_error.
Proof.
  induction n as [|n IH]; intros dest src m r m' H; cbn [chunk_loop] in H.
  - discriminate.
  - apply bind_Some in H. destruct H as (st & m1 & _ & H).
    destruct (ftfc_failed R st).
    + now inversion H.
    + exact (IH _ _ _ _ _ H).
Qed.

Lemma up_progmem_write_result_cases fuel addr buf count m r m' :
  up_progmem_write cfg R D fuel addr buf count m = Some (r, m') ->
  r = - EINVAL \/ r = - EIO \/ r = to_ssize count.
Proof.
  unfold up_progmem_write. intros H.
  destruct (negb _); [left; now inversion H|]. right.
  apply bind_Some in H. destruct H as (same & m0 & _ & H).
  destruct same; [right; now inversion H|].
  apply bind_Some in H. destruct H as (r1 & m1 & H1 & H).
  destruct r1 as [e|].
  - left. apply chunk_loop_early_result in H1. now inversion H; subst.
  - destruct (FTFC_VERIFY_CHECK cfg); [|right; now inversion H].
    apply bind_Some in H. destruct H as (r2 & m2 & H2 & H).
    destruct r2 as [e|]; [|right; now inversion H].
    right. apply chunk_loop_early_result in H2. now inversion H; subst.
Qed.

(** X7.  A write of zero bytes without the double-write workaround
    returns 0 and touches nothing: no register is read or written,
    whatever the address and the buffer. *)
Theorem write_zero_count (fuel : nat) (addr : Z) (buf : buffer)
  (m : machine') :
  SMART_FS_DOUBLE_WRITE_WORKAROUND cfg = false ->
  up_progmem_write cfg R D fuel addr buf 0 m = Some (0, m).
Proof.
  intros Hw. unfold up_progmem_write, double_write_check.
  rewrite Hw, Zmod_0_l, Zdiv_0_l. cbn [Z.eqb negb Z.to_nat chunk_loop].
  unfold bind, ret. destruct (FTFC_VERIFY_CHECK cfg); reflexivity.
Qed.

(** X8.  On a controller that completes its commands a write always
    returns, and what it returns is -EINVAL, -EIO or the whole count: never
    a partial count and none of -EFAULT, -EROFS, -EACCES or -EPERM that its
    header lists. *)
Theorem write_returns_one_of_three
  (addr : Z) (buf : buffer) (count : Z) (m : machine') :
  live R D ->
  exists fuel0 r m',
    (forall fuel, (fuel0 <= fuel)%nat ->
       up_progmem_write cfg R D fuel addr buf count m = Some (r, m')) /\
    (r = - EINVAL \/ r = - EIO \/ r = to_ssize count).
Proof.
  intros Hlive.
  destruct (up_progmem_write_converges addr buf count Hlive m)
    as (fuel0 & [r m'] & Hrun).
  exists fuel0, r, m'. split; [exact Hrun|].
  exact (up_progmem_write_result_cases _ _ _ _ _ _ _
           (Hrun fuel0 (Nat.le_refl _))).
Qed.

Lemma execute_returns_fstat_read fuel :
  returns_fstat_read R D (execute_ftfc_command R D fuel).
Proof.
  intros m st m'. rewrite execute_ftfc_command_raw_eq.
  unfold execute_ftfc_command_raw. intros H.
  apply bind_Some in H. destruct H as (v0 & m1 & _ & H).
  apply bind_Some in H. destruct H as (u & m2 & _ & H).
  apply bind_Some in H. destruct H as (u' & m3 & _ & H).
  destruct (getreg8_Some FSTAT m3) as (v & d' & Ed & Eg).
  rewrite Eg in H. inversion H; subst.
  exists (dev m3). now rewrite Ed.
Qed.

Lemma returns_fstat_read_bind {A} (c : M D A) (k : A -> M D Z) :
  (forall a, returns_fstat_read R D (k a)) ->
  returns_fstat_read R D (bind c k).
Proof.
  intros Hk m st m' H. apply bind_Some in H.
  destruct H as (a & m1 & _ & H). exact (Hk a _ _ _ H).
Qed.

Ltac command_returns_fstat_read :=
  repeat (apply returns_fstat_read_bind; intros _);
  apply execute_returns_fstat_read.

Lemma erase_sector_returns_fstat_read fuel dest :
  returns_fstat_read R D (erase_sector_command R D fuel dest).
Proof. unfold erase_sector_command. command_returns_fstat_read. Qed.

Lemma verify_section_returns_fstat_read fuel dest :
  returns_fstat_read R D (verify_section_command R D fuel dest).
Proof. unfold verify_section_command. command_returns_fstat_read. Qed.

Lemma program_phrase_returns_fstat_read fuel buf dest src :
  returns_fstat_read R D (program_phrase_command cfg R D fuel buf dest src).
Proof. unfold program_phrase_command. command_returns_fstat_read. Qed.

Lemma program_check_returns_fstat_read fuel buf dest src :
  returns_fstat_read R D (program_check_command cfg R D fuel buf dest src).
Proof. unfold program_check_command. command_returns_fstat_read. Qed.

Lemma chunk_loop_error_free command on_error n :
  error_free R D ->
  (forall dest src, returns_fstat_read R D (command dest src)) ->
  forall dest src m r m',
    chunk_loop cfg R D command on_error n dest src m = Some (r, m') ->
    r = None.
Proof.
  intros Hfree Hc.
  induction n as [|n IH]; intros dest src m r m' H; cbn [chunk_loop] in H.
  - now inversion H.
  - apply bind_Some in H. destruct H as (st & m1 & H1 & H).
    destruct (Hc _ _ _ _ _ H1) as [d Hd]. rewrite Hd, Hfree in H.
    exact (IH _ _ _ _ _ H).
Qed.

(** X9.  On a controller that completes its commands and never shows an
    error bit, an erase returns the block size for every block index. *)
Theorem eraseblock_succeeds_when_error_free (block : Z) (m : machine') :
  live R D ->
  error_free R D ->
  0 <= S32K1XX_PROGMEM_BLOCK_SECTOR_SIZE cfg < 2147483648 ->
  exists fuel0 m',
    forall fuel, (fuel0 <= fuel)%nat ->
      up_progmem_eraseblock cfg R D fuel block m
      = Some (S32K1XX_PROGMEM_BLOCK_SECTOR_SIZE cfg, m').
Proof.
  intros Hlive Hfree Hbs.
  destruct (up_progmem_eraseblock_converges block Hlive m)
    as (fuel0 & [r m'] & Hrun).
  exists fuel0, m'. intros fuel Hf. rewrite (Hrun fuel Hf).
  f_equal. f_equal.
  pose proof (Hrun fuel0 (Nat.le_refl _)) as H.
  unfold up_progmem_eraseblock in H.
  apply bind_Some in H. destruct H as (st & m1 & H1 & H).
  destruct (erase_sector_returns_fstat_read _ _ _ _ _ H1) as [d Hd].
  rewrite Hd, Hfree in H.
  destruct (FTFC_VERIFY_CHECK cfg).
  - apply bind_Some in H. destruct H as (st' & m2 & H2 & H).
    destruct (verify_section_returns_fstat_read _ _ _ _ _ H2) as [d' Hd'].
    rewrite Hd', Hfree in H. inversion H; subst.
    apply to_ssize_small. exact Hbs.
  - inversion H; subst. apply to_ssize_small. exact Hbs.
Qed.

(** X10.  On a controller that completes its commands and never shows an
    error bit, a write of a count that is a multiple of the write unit
    returns the count, in every build configuration. *)
Theorem write_succeeds_when_error_free
  (addr : Z) (buf : buffer) (count : Z) (m : machine') :
  live R D ->
  error_free R D ->
  count mod S32K1XX_PROGMEM_DFLASH_WRITE_UNIT_SIZE cfg = 0 ->
  0 <= count < 2147483648 ->
  exists fuel0 m',
    forall fuel, (fuel0 <= fuel)%nat ->
      up_progmem_write cfg R D fuel addr buf count m = Some (count, m').
Proof.
  intros Hlive Hfree Hmod Hc.
  destruct (up_progmem_write_converges addr buf count Hlive m)
    as (fuel0 & [r m'] & Hrun).
  exists fuel0, m'. intros fuel Hf. rewrite (Hrun fuel Hf).
  f_equal. f_equal.
  pose proof (Hrun fuel0 (Nat.le_refl _)) as H.
  unfold up_progmem_write in H.
  apply Z.eqb_eq in Hmod. rewrite Hmod in H. cbn [negb] in H.
  apply bind_Some in H. destruct H as (same & m0 & _ & H).
  rewrite <- (to_ssize_small count Hc).
  destruct same; [now inversion H|].
  apply bind_Some in H. destruct H as (r1 & m1 & H1 & H).
  apply (chunk_loop_error_free _ _ _ Hfree
           (program_phrase_returns_fstat_read fuel0 buf)) in H1.
  subst r1.
  destruct (FTFC_VERIFY_CHECK cfg); [|now inversion H].
  apply bind_Some in H. destruct H as (r2 & m2 & H2 & H).
  apply (chunk_loop_error_free _ _ _ Hfree
           (program_check_returns_fstat_read fuel0 buf)) in H2.
  subst r2. now inversion H.
Qed.

(** ** A controller that never completes *)

Lemma wait_ftfc_ready_None fuel :
  forall m,
    wait_ftfc_ready R D fuel m = None <->
    ready_within R D fuel (dev m) = false.
Proof.
  induction fuel as [|f IH]; intros m.
  - simpl. split; reflexivity.
  - cbn [wait_ftfc_ready ready_within].
    destruct (getreg8_Some FSTAT m) as (v & d' & Ed & Eg).
    rewrite (bind_eq _ _ _ _ _ Eg), Ed.
    destruct (Z.land (to_uint8 v) CCIF =? 0).
    + rewrite IH. reflexivity.
    + unfold ret. split; discriminate.
Qed.

(** X11.  The busy-wait gives up within a poll budget exactly when the
    completion flag is not seen within that many reads of FSTAT; so from a
    controller state in which the flag never comes, an erase, and, in a
    build without the double-write workaround, a write of at least one
    chunk, do not return for any budget: the caller hangs. *)
Theorem stuck_controller_hangs
  (fuel : nat) (block addr : Z) (buf : buffer) (count : Z) (m : machine') :
  (wait_ftfc_ready R D fuel m = None <->
   ready_within R D fuel (dev m) = false) /\
  (stuck R D (dev m) ->
   up_progmem_eraseblock cfg R D fuel block m = None /\
   (SMART_FS_DOUBLE_WRITE_WORKAROUND cfg = false ->
    count mod S32K1XX_PROGMEM_DFLASH_WRITE_UNIT_SIZE cfg = 0 ->
    0 < S32K1XX_PROGMEM_DFLASH_WRITE_UNIT_SIZE cfg <= count ->
    up_progmem_write cfg R D fuel addr buf count m = None)).
Proof.
  split; [apply wait_ftfc_ready_None|].
  intros Hstuck.
  assert (Hwait : wait_ftfc_ready R D fuel m = None)
    by (apply wait_ftfc_ready_None, Hstuck).
  split.
  - unfold up_progmem_eraseblock, erase_sector_command, bind.
    now rewrite Hwait.
  - intros Hw Hmod Hcount.
    unfold up_progmem_write, double_write_check.
    apply Z.eqb_eq in Hmod. rewrite Hmod, Hw. cbn [negb].
    assert (Hn : exists n,
               Z.to_nat (count / S32K1XX_PROGMEM_DFLASH_WRITE_UNIT_SIZE cfg)
               = S n).
    { assert (1 <= count / S32K1XX_PROGMEM_DFLASH_WRITE_UNIT_SIZE cfg)
        by (apply Z.div_le_lower_bound; lia).
      exists (Z.to_nat
                (count / S32K1XX_PROGMEM_DFLASH_WRITE_UNIT_SIZE cfg - 1)).
      lia. }
    destruct Hn as [n Hn]. rewrite Hn.
    cbn [chunk_loop]. unfold program_phrase_command, bind, ret.
    now rewrite Hwait.
Qed.

(** ** The order of the bus accesses of the operations *)









(** ** The double-write workaround *)

(** X15.  With SMART_FS_DOUBLE_WRITE_WORKAROUND, a write of an aligned
    count whose first four buffer bytes equal the word found at the
    stripped address returns the whole count without any command: the
    test compares that one word twice, not the second word of the phrase,
    so the rest of the buffer is never looked at, and the word is loaded
    from the address with the start address already subtracted. *)
Theorem write_workaround_skips_on_first_word
  (fuel : nat) (addr : Z) (buf : buffer) (count : Z) (m : machine') :
  let off := strip_start_addr cfg addr in
  SMART_FS_DOUBLE_WRITE_WORKAROUND cfg = true ->
  count mod S32K1XX_PROGMEM_DFLASH_WRITE_UNIT_SIZE cfg = 0 ->
  flash_word D (dev m) off = buf_word buf ->
  up_progmem_write cfg R D fuel addr buf count m
  = Some (to_ssize count,
          {| dev := dev m;
             log := log m ++ [Load32 off (buf_word buf);
                              Load32 off (buf_word buf)] |}).
Proof.
  intros off Hw Hmod Hword.
  assert (Hdw : double_write_check cfg D off buf m
                = Some (true,
                        {| dev := dev m;
                           log := log m ++ [Load32 off (buf_word buf);
                                            Load32 off (buf_word buf)] |})).
  { unfold double_write_check. rewrite Hw.
    rewrite (bind_eq _ _ _ _ _ (eq_refl : load32 D off m = Some (_, _))).
    rewrite Hword, Z.eqb_refl.
    rewrite (bind_eq _ _ _ _ _ (eq_refl : load32 D off _ = Some (_, _))).
    cbn [dev log]. rewrite Hword, Z.eqb_refl, <- app_assoc. reflexivity. }
  unfold up_progmem_write. fold off.
  apply Z.eqb_eq in Hmod. rewrite Hmod. cbn [negb].
  rewrite (bind_eq _ _ _ _ _ Hdw). reflexivity.
Qed.

(** ** The erased check and the bytes that are not erased *)

Lemma filter_none {A} (f : A -> bool) (l : list A) :
  (forall x, In x l -> f x = false) -> filter f l = [].
Proof.
  induction l as [|a l IH]; intros H; [reflexivity|].
  simpl. rewrite (H a (or_introl eq_refl)).
  apply IH. intros x Hx. apply H. now right.
Qed.

Lemma dirty_count_after_clean_prefix d base n c :
  (c <= n)%nat ->
  (forall j, (j < c)%nat -> flash_byte D d (base + Z.of_nat j) = 255) ->
  (dirty_count D d base n <= n - c)%nat.
Proof.
  intros Hc Hclean. unfold dirty_count.
  replace n with (c + (n - c))%nat at 1 by lia.
  rewrite seq_app, filter_app, length_app.
  rewrite filter_none.
  - simpl. etransitivity; [apply filter_length_le|].
    rewrite length_seq. lia.
  - intros j Hj. apply in_seq in Hj.
    rewrite (Hclean j) by lia. reflexivity.
Qed.

(** X16.  For a valid page the result of the erased check is never below
    the number of bytes of the page that are not 0xFF, and never above the
    page size: it counts every byte from the first one that is not erased
    to the end of the page.  The check leaves the controller as it was. *)
Theorem ispageerased_bounds_dirty_bytes (page : Z) (m : machine') :
  page < S32K1XX_PROGMEM_PAGE_COUNT cfg ->
  0 <= S32K1XX_PROGMEM_PAGE_SIZE cfg < 2147483648 ->
  exists r m',
    up_progmem_ispageerased cfg D page m = Some (r, m') /\
    dev m' = dev m /\
    Z.of_nat (dirty_count D (dev m) (up_progmem_getaddress cfg page)
                (Z.to_nat (S32K1XX_PROGMEM_PAGE_SIZE cfg)))
    <= r <= S32K1XX_PROGMEM_PAGE_SIZE cfg.
Proof.
  intros Hpage Hsize.
  set (size := S32K1XX_PROGMEM_PAGE_SIZE cfg) in *.
  set (base := up_progmem_getaddress cfg page).
  destruct (scan_erased_spec base (Z.to_nat size) 0 m)
    as (c & Hc & Hrun & Herased & _).
  rewrite Z.add_0_r in *.
  pose proof (dirty_count_after_clean_prefix (dev m) base (Z.to_nat size) c
                Hc Herased) as Hbound.
  eexists. eexists. split; [|split].
  - unfold up_progmem_ispageerased.
    apply Z.ltb_lt in Hpage. rewrite Z.leb_antisym, Hpage. cbn [negb].
    fold base. fold size. rewrite (bind_eq _ _ _ _ _ Hrun).
    unfold ret. rewrite Z.add_0_l.
    rewrite to_ssize_small by lia. reflexivity.
  - reflexivity.
  - lia.
Qed.

(** ** Writing in two parts *)

Lemma load_payload_shift slot buf c src n :
  forall j,
    load_payload R D slot buf (src + c) n j
    = load_payload R D slot (shift_buffer buf c) src n j.
Proof.
  induction n as [|n IH]; intros j; cbn [load_payload]; [reflexivity|].
  rewrite IH. unfold buf_byte, shift_buffer.
  replace (c + (src + j)) with (src + c + j) by lia. reflexivity.
Qed.

Lemma chunk_loop_shift fuel buf c on_error n :
  forall dest src m,
    chunk_loop cfg R D (program_phrase_command cfg R D fuel buf) on_error
      n dest (src + c) m
    = chunk_loop cfg R D
        (program_phrase_command cfg R D fuel (shift_buffer buf c)) on_error
        n dest src m.
Proof.
  induction n as [|n IH]; intros dest src m; cbn [chunk_loop];
    [reflexivity|].
  unfold program_phrase_command at 1 3. rewrite load_payload_shift.
  unfold bind.
  destruct (wait_ftfc_ready R D fuel m) as [[u0 m0]|]; [|reflexivity].
  destruct (putreg8 D _ _ m0) as [[u1 m1]|]; [|reflexivity].
  destruct (putreg8 D _ _ m1) as [[u2 m2]|]; [|reflexivity].
  destruct (put_fccob_addr R D dest m2) as [[u3 m3]|]; [|reflexivity].
  destruct (load_payload R D 8 _ src _ 0 m3) as [[u4 m4]|]; [|reflexivity].
  destruct (execute_ftfc_command R D fuel m4) as [[st m5]|]; [|reflexivity].
  destruct (ftfc_failed R st); [reflexivity|].
  replace (src + c + S32K1XX_PROGMEM_DFLASH_WRITE_UNIT_SIZE cfg)
    with (src + S32K1XX_PROGMEM_DFLASH_WRITE_UNIT_SIZE cfg + c) by lia.
  apply IH.
Qed.

Lemma up_progmem_write_plain fuel addr buf count m :
  FTFC_VERIFY_CHECK cfg = false ->
  SMART_FS_DOUBLE_WRITE_WORKAROUND cfg = false ->
  count mod S32K1XX_PROGMEM_DFLASH_WRITE_UNIT_SIZE cfg = 0 ->
  up_progmem_write cfg R D fuel addr buf count m
  = match chunk_loop cfg R D (program_phrase_command cfg R D fuel buf)
            (- EIO)
            (Z.to_nat (count / S32K1XX_PROGMEM_DFLASH_WRITE_UNIT_SIZE cfg))
            (wrap32 (strip_start_addr cfg addr + 8388608)) 0 m with
    | Some (Some e, m') => Some (e, m')
    | Some (None, m') => Some (to_ssize count, m')
    | None => None
    end.
Proof.
  intros Hv Hw Hmod. unfold up_progmem_write, double_write_check.
  apply Z.eqb_eq in Hmod. rewrite Hmod, Hw, Hv. cbn [negb].
  unfold bind, ret.
  destruct (chunk_loop _ _ _ _ _ _ _ _ m) as [[[e|] m']|]; reflexivity.
Qed.

(** X17.  Without the verify phase and the double-write workaround a
    write can be done in two parts: when the first [c1] bytes have been
    written with success, writing [c1 + c2] bytes in one call is the same
    as going on with a second call for the [c2] bytes that follow, at the
    address and the buffer position [c1] further on.  The bus accesses are
    the same, and the one call returns [c1 + c2] where the second returns
    [c2] and -EIO where it returns -EIO. *)
Theorem write_in_two_parts
  (fuel : nat) (addr : Z) (buf : buffer) (c1 c2 : Z) (m m1 : machine') :
  FTFC_VERIFY_CHECK cfg = false ->
  SMART_FS_DOUBLE_WRITE_WORKAROUND cfg = false ->
  0 < S32K1XX_PROGMEM_DFLASH_WRITE_UNIT_SIZE cfg ->
  c1 mod S32K1XX_PROGMEM_DFLASH_WRITE_UNIT_SIZE cfg = 0 ->
  c2 mod S32K1XX_PROGMEM_DFLASH_WRITE_UNIT_SIZE cfg = 0 ->
  0 <= c1 -> 0 <= c2 -> c1 + c2 < 2147483648 ->
  0 <= addr -> addr + c1 < 4294967296 ->
  0 <= S32K1XX_PROGMEM_START_ADDR cfg ->
  S32K1XX_PROGMEM_START_ADDR cfg <= addr \/
  addr + c1 < S32K1XX_PROGMEM_START_ADDR cfg ->
  up_progmem_write cfg R D fuel addr buf c1 m = Some (c1, m1) ->
  up_progmem_write cfg R D fuel addr buf (c1 + c2) m
  = match up_progmem_write cfg R D fuel (addr + c1) (shift_buffer buf c1)
            c2 m1 with
    | Some (r, m2) => Some (if r =? c2 then c1 + c2 else r, m2)
    | None => None
    end.
Proof.
  intros Hv Hw Hwu Hm1 Hm2 H1 H2 Hsum Ha Hmax Hstart Hside Hfirst.
  assert (Hm12 : (c1 + c2) mod WRITE_UNIT = 0).
  { rewrite Z.add_mod, Hm1, Hm2 by lia. reflexivity. }
  assert (Hq1 : c1 = c1 / WRITE_UNIT * WRITE_UNIT).
  { rewrite (Z.div_mod c1 WRITE_UNIT) at 1 by lia. rewrite Hm1. lia. }
  assert (Hdiv : (c1 + c2) / WRITE_UNIT = c1 / WRITE_UNIT + c2 / WRITE_UNIT).
  { rewrite Hq1 at 1. rewrite (Z.add_comm (c1 / WRITE_UNIT * WRITE_UNIT)).
    rewrite Z.div_add by lia. lia. }
  assert (Hq1pos : 0 <= c1 / WRITE_UNIT) by (apply Z.div_pos; lia).
  assert (Hq2pos : 0 <= c2 / WRITE_UNIT) by (apply Z.div_pos; lia).
  assert (Hstrip : strip_start_addr cfg (addr + c1)
                   = strip_start_addr cfg addr + c1).
  { unfold strip_start_addr.
    destruct (Z.leb_spec (S32K1XX_PROGMEM_START_ADDR cfg) addr);
      destruct (Z.leb_spec (S32K1XX_PROGMEM_START_ADDR cfg) (addr + c1));
      try lia.
    rewrite !wrap32_small by lia. lia. }
  rewrite (up_progmem_write_plain _ _ _ _ _ Hv Hw Hm1) in Hfirst.
  rewrite (up_progmem_write_plain _ _ _ _ _ Hv Hw Hm2).
  rewrite (up_progmem_write_plain _ _ _ _ _ Hv Hw Hm12).
  rewrite Hstrip.
  set (off := strip_start_addr cfg addr) in *.
  destruct (chunk_loop _ _ _ _ _ (Z.to_nat (c1 / WRITE_UNIT)) _ _ m)
    as [[[e|] m1']|] eqn:Hloop; [| |discriminate].
  { apply chunk_loop_early_result in Hloop. subst e.
    inversion Hfirst. unfold EIO in *. lia. }
  assert (Em : m1' = m1) by (inversion Hfirst; reflexivity).
  subst m1'. clear Hfirst.
  rewrite Hdiv, Z2Nat.inj_add by lia.
  rewrite (chunk_loop_resume _ _ _ _ _ _ _ _ (wrap32_range _) Hloop).
  rewrite Z2Nat.id by lia. rewrite <- Hq1.
  rewrite wrap32_idem_l.
  replace (off + 8388608 + c1) with (off + c1 + 8388608) by lia.
  rewrite chunk_loop_shift.
  destruct (chunk_loop _ _ _ _ _ _ _ _ m1) as [[[e|] m2]|] eqn:E;
    [| |reflexivity].
  - apply chunk_loop_early_result in E. subst e.
    destruct (Z.eqb_spec (- EIO) c2); [unfold EIO in *; lia|reflexivity].
  - rewrite !to_ssize_small by lia. now rewrite Z.eqb_refl.
Qed.

(** ** The verify phases and the busy-wait *)


(** X19.  On a controller that completes its commands the busy-wait
    returns; it only reads FSTAT and never stores: every read but the last
    shows the completion flag clear, the last shows it set, and when the
    flag is already set at the first read that read is the only access. *)
Theorem wait_ftfc_ready_polls_only (m : machine') :
  live R D ->
  exists fuel0 polls vr m',
    (forall fuel, (fuel0 <= fuel)%nat ->
       wait_ftfc_ready R D fuel m = Some (tt, m')) /\
    log m' = log m ++ map (Get8 FSTAT) polls ++ [Get8 FSTAT vr] /\
    Forall (ccif_clear R) polls /\
    Z.land vr CCIF <> 0 /\
    (Z.land (to_uint8 (fst (dev_get D FSTAT (dev m)))) CCIF <> 0 ->
     polls = []).
Proof.
  intros Hlive.
  destruct (wait_ftfc_ready_converges Hlive m) as (fuel0 & [[] m'] & Hrun).
  pose proof (Hrun fuel0 (Nat.le_refl _)) as H.
  pose proof (wait_ftfc_ready_inv _ _ _ _ H)
    as (polls & vr & L & Hall & Hr & _ & _).
  exists fuel0, polls, vr, m'.
  split; [exact Hrun|]. split; [exact L|]. split; [exact Hall|].
  split; [exact Hr|].
  intros Hset. destruct fuel0 as [|f]; [discriminate|].
  cbn [wait_ftfc_ready] in H.
  destruct (getreg8_Some FSTAT m) as (v & d' & Ed & Eg).
  rewrite (bind_eq _ _ _ _ _ Eg) in H. rewrite Ed in Hset. cbn [fst] in Hset.
  apply Z.eqb_neq in Hset. rewrite Hset in H.
  inversion H; subst m'. cbn [log] in L.
  apply app_inv_head in L.
  destruct polls as [|p polls]; [reflexivity|].
  destruct polls; discriminate.
Qed.

End Theory.

(** * The scripted controller is a live, write-one-to-clear device *)

Lemma land_128_testbit v : Z.land v 128 <> 0 -> Z.testbit v 7 = true.
Proof.
  intros H. destruct (Z.testbit v 7) eqn:E; [reflexivity|].
  exfalso. apply H. apply Z.bits_inj'. intros n Hn.
  rewrite Z.land_spec, Z.bits_0. change 128 with (2 ^ 7).
  rewrite Z.pow2_bits_eqb by lia.
  destruct (Z.eqb_spec 7 n) as [<-|_]; [now rewrite E|apply andb_false_r].
Qed.

Lemma ready_byte_has_ccif status :
  Z.land (to_uint8 (Z.lor 128 status)) 128 <> 0.
Proof.
  intros H.
  assert (T : Z.testbit (Z.land (to_uint8 (Z.lor 128 status)) 128) 7 = true).
  { unfold to_uint8. change 256 with (2 ^ 8).
    rewrite Z.land_spec, Z.mod_pow2_bits_low, Z.lor_spec by lia.
    reflexivity. }
  rewrite H in T. discriminate.
Qed.

Lemma ready_within_scripted n d :
  ready_within s32k1xx_ftfc scripted_ftfc (S n) d
  = match sim_busy d with
    | O => if Z.land (to_uint8 (Z.lor 128 (sim_status d))) 128 =? 0
           then ready_within s32k1xx_ftfc scripted_ftfc n d else true
    | S b =>
        ready_within s32k1xx_ftfc scripted_ftfc n
          {| sim_busy := b; sim_status := sim_status d;
             sim_script := sim_script d; sim_array := sim_array d |}
    end.
Proof.
  cbn [ready_within dev_get scripted_ftfc S32K1XX_FTFC_FSTAT s32k1xx_ftfc
       FTTC_FSTAT_CCIF].
  unfold sim_get. rewrite Z.eqb_refl.
  destruct (sim_busy d); reflexivity.
Qed.

Lemma scripted_ftfc_live : live s32k1xx_ftfc scripted_ftfc.
Proof.
  intros d. exists (S (sim_busy d)).
  destruct d as [busy status script array]. cbn [sim_busy].
  induction busy as [|b IH]; rewrite ready_within_scripted;
    cbn [sim_busy sim_status sim_script sim_array].
  - destruct (Z.eqb_spec (Z.land (to_uint8 (Z.lor 128 status)) 128) 0)
      as [E|_]; [|reflexivity].
    exfalso. exact (ready_byte_has_ccif status E).
  - exact IH.
Qed.

Lemma scripted_ftfc_launch_clears_ccif :
  launch_clears_ccif s32k1xx_ftfc scripted_ftfc.
Proof.
  intros v d H.
  change (Z.land v 128 <> 0) in H. apply land_128_testbit in H.
  cbn [dev_get dev_put scripted_ftfc S32K1XX_FTFC_FSTAT s32k1xx_ftfc
       FTTC_FSTAT_CCIF].
  unfold sim_put, sim_get. rewrite !Z.eqb_refl, H. reflexivity.
Qed.

(** * The properties on the S32K1xx instance *)

Lemma getpage_getaddress_roundtrip_witness :
  up_progmem_getpage (s32k1xx_dflash false false)
    (up_progmem_getaddress (s32k1xx_dflash false false) 31) = 31.
Proof.
  apply getpage_getaddress_roundtrip.
  - unfold region_fits. simpl. lia.
  - simpl. lia.
Defined.

Lemma write_misaligned_count_einval_witness :
  up_progmem_write (s32k1xx_dflash false false) s32k1xx_ftfc scripted_ftfc
    3 0 ramp 15 (sim_boot [] erased_array)
  = Some (- EINVAL, sim_boot [] erased_array).
Proof.
  apply write_misaligned_count_einval. vm_compute. discriminate.
Defined.


Lemma write_verify_failure_returns_count_witness :
  up_progmem_write (s32k1xx_dflash true false) s32k1xx_ftfc scripted_ftfc
    3 268435456 ramp 16 verify_boot
  = Some (16, verify_after_check1).
Proof.
  apply (write_verify_failure_returns_count (s32k1xx_dflash true false)
           s32k1xx_ftfc scripted_ftfc 3 268435456 ramp 16 1
           verify_boot verify_boot verify_after_program
           verify_after_check0 verify_after_check1 129).
  - reflexivity.
  - lia.
  - reflexivity.
  - simpl. lia.
  - vm_compute. reflexivity.
  - vm_compute. reflexivity.
  - vm_compute. reflexivity.
  - vm_compute. reflexivity.
  - vm_compute. reflexivity.
Defined.

Lemma write_stops_at_protection_violation_witness :
  up_progmem_write (s32k1xx_dflash false false) s32k1xx_ftfc scripted_ftfc
    3 268435456 ramp 24 violation_boot
  = Some (- EIO, violation_after_chunk1) /\
  exists evs,
    log violation_after_chunk1
    = log violation_after_chunk0 ++ evs ++ [Get8 1073872896 144].
Proof.
  apply (write_stops_at_protection_violation (s32k1xx_dflash false false)
           s32k1xx_ftfc scripted_ftfc 3 268435456 ramp 24 1
           violation_boot violation_boot violation_after_chunk0
           violation_after_chunk1 144).
  - reflexivity.
  - simpl. lia.
  - vm_compute. reflexivity.
  - vm_compute. reflexivity.
  - vm_compute. reflexivity.
  - vm_compute. discriminate.
Defined.

Lemma execute_launch_wait_read_once_witness :
  exists fuel0 v0 polls vr status m',
    (forall fuel, (fuel0 <= fuel)%nat ->
       execute_ftfc_command s32k1xx_ftfc scripted_ftfc fuel
         (sim_boot [16] erased_array) = Some (status, m')) /\
    log m' = log (sim_boot [16] erased_array)
             ++ [Get8 1073872896 v0;
                 Put8 (to_uint8 (Z.lor v0 128)) 1073872896]
             ++ map (Get8 1073872896) polls
             ++ [Get8 1073872896 vr; Get8 1073872896 status] /\
    Z.land (to_uint8 (Z.lor v0 128)) 128 = 128 /\
    Forall (ccif_clear s32k1xx_ftfc) polls /\
    Z.land vr 128 <> 0 /\
    (launch_clears_ccif s32k1xx_ftfc scripted_ftfc -> polls <> []).
Proof.
  apply (execute_launch_wait_read_once s32k1xx_ftfc scripted_ftfc
           (sim_boot [16] erased_array) scripted_ftfc_live).
  simpl. lia.
Defined.

Lemma ispageerased_validates_index_witness :
  up_progmem_ispageerased (s32k1xx_dflash false false) scripted_ftfc 32
    (sim_boot [] dirty_array)
  = Some (- EFAULT, sim_boot [] dirty_array) /\
  exists fuel0 r m',
    (forall fuel, (fuel0 <= fuel)%nat ->
       up_progmem_eraseblock (s32k1xx_dflash false false) s32k1xx_ftfc
         scripted_ftfc fuel 32 (sim_boot [0] erased_array)
       = Some (r, m')) /\
    (r = - EIO \/ r = 4096) /\
    log m' <> log (sim_boot [0] erased_array).
Proof.
  destruct (ispageerased_validates_index (s32k1xx_dflash false false)
              s32k1xx_ftfc scripted_ftfc) as (Hrange & _ & _ & _ & Herase).
  split.
  - apply Hrange. simpl. lia.
  - apply (Herase scripted_ftfc_live).
    simpl. lia.
Defined.

Lemma ispageerased_scan_result_witness :
  exists i,
    0 <= i <= 2048 /\
    up_progmem_ispageerased (s32k1xx_dflash false false) scripted_ftfc 0
      (sim_boot [] dirty_array)
    = Some (2048 - i,
            {| dev := dev (sim_boot [] dirty_array);
               log := log (sim_boot [] dirty_array)
                      ++ loads scripted_ftfc (dev (sim_boot [] dirty_array))
                           268435456 (Z.to_nat (Z.min (i + 1) 2048)) |}) /\
    (forall j, 0 <= j < i ->
       flash_byte scripted_ftfc (dev (sim_boot [] dirty_array))
         (268435456 + j) = 255) /\
    (i < 2048 ->
     flash_byte scripted_ftfc (dev (sim_boot [] dirty_array))
       (268435456 + i) <> 255) /\
    (2048 - i = 0 <->
     forall j, 0 <= j < 2048 ->
       flash_byte scripted_ftfc (dev (sim_boot [] dirty_array))
         (268435456 + j) = 255).
Proof.
  apply (ispageerased_scan_result (s32k1xx_dflash false false)
           scripted_ftfc 0 (sim_boot [] dirty_array)).
  - simpl. lia.
  - simpl. lia.
Defined.

(** C8 as stated does not hold: with byte 3 of page 0 programmed and
    every other byte erased the result is 2045, which is positive and is
    not the offset 3 of the first byte that is not 0xFF. *)
Lemma ispageerased_positive_result_not_offset :
  option_map fst
    (up_progmem_ispageerased (s32k1xx_dflash false false) scripted_ftfc 0
       (sim_boot [] dirty_array)) = Some 2045 /\
  flash_byte scripted_ftfc (dev (sim_boot [] dirty_array)) (268435456 + 3)
  <> 255 /\
  ~ positive_result_is_first_dirty_offset (s32k1xx_dflash false false)
      scripted_ftfc 0 (sim_boot [] dirty_array).
Proof.
  split; [vm_compute; reflexivity|].
  split; [vm_compute; discriminate|].
  intros H.
  assert (Hrun : up_progmem_ispageerased (s32k1xx_dflash false false)
                   scripted_ftfc 0 (sim_boot [] dirty_array)
                 = Some (2045,
                     machine_after
                       (up_progmem_ispageerased (s32k1xx_dflash false false)
                          scripted_ftfc 0 (sim_boot [] dirty_array))
                       (sim_boot [] dirty_array)))
    by (vm_compute; reflexivity).
  destruct (H _ _ Hrun ltac:(lia)) as [_ Hclean].
  specialize (Hclean 3 ltac:(lia)). vm_compute in Hclean. discriminate.
Qed.

Lemma write_absolute_or_relative_witness :
  up_progmem_write (s32k1xx_dflash true true) s32k1xx_ftfc scripted_ftfc
    3 268435472 ramp 16 (sim_boot [0; 0; 0; 16] dirty_array)
  = up_progmem_write (s32k1xx_dflash true true) s32k1xx_ftfc scripted_ftfc
      3 (268435472 - 268435456) ramp 16
      (sim_boot [0; 0; 0; 16] dirty_array) /\
  up_progmem_write (s32k1xx_dflash true false) s32k1xx_ftfc scripted_ftfc
    3 805306384 ramp 16 (sim_boot [0; 0; 0; 16] dirty_array)
  = up_progmem_write (s32k1xx_dflash true false) s32k1xx_ftfc scripted_ftfc
      3 (805306384 - 268435456) ramp 16
      (sim_boot [0; 0; 0; 16] dirty_array).
Proof.
  split.
  - apply (write_absolute_or_relative (s32k1xx_dflash true true)).
    + simpl. lia.
    + lia.
    + left. simpl. lia.
  - apply (write_absolute_or_relative (s32k1xx_dflash true false)).
    + simpl. lia.
    + lia.
    + right. split; reflexivity.
Defined.

(** C9 as stated does not hold for every address at or above the start
    address: in a build with the double-write workaround, the absolute
    address 0x20000010 is stripped to 0x10000010, where the word found
    equals the first word of the buffer, so the write returns 16 without a
    command; the address 0x20000010 - 0x10000000 is stripped to 0x10,
    where the word differs, so a command is issued and the controller's
    FPVIOL makes the write return -EIO. *)
Lemma write_absolute_differs_from_relative :
  S32K1XX_PROGMEM_START_ADDR (s32k1xx_dflash false true) <= 536870928 /\
  option_map fst
    (up_progmem_write (s32k1xx_dflash false true) s32k1xx_ftfc scripted_ftfc
       3 536870928 erased_word_then_zeros 16
       (sim_boot [16] erased_region_array)) = Some 16 /\
  option_map fst
    (up_progmem_write (s32k1xx_dflash false true) s32k1xx_ftfc scripted_ftfc
       3 (536870928 - 268435456) erased_word_then_zeros 16
       (sim_boot [16] erased_region_array)) = Some (- EIO) /\
  up_progmem_write (s32k1xx_dflash false true) s32k1xx_ftfc scripted_ftfc
    3 536870928 erased_word_then_zeros 16
    (sim_boot [16] erased_region_array)
  <> up_progmem_write (s32k1xx_dflash false true) s32k1xx_ftfc scripted_ftfc
       3 (536870928 - 268435456) erased_word_then_zeros 16
       (sim_boot [16] erased_region_array).
Proof.
  split; [simpl; lia|].
  split; [vm_compute; reflexivity|].
  split; [vm_compute; reflexivity|].
  intros H. apply (f_equal (option_map fst)) in H.
  vm_compute in H. discriminate.
Qed.

Lemma execute_returns_raw_status_witness :
  exists fuel0 status m' evs,
    (forall fuel, (fuel0 <= fuel)%nat ->
       execute_ftfc_command s32k1xx_ftfc scripted_ftfc fuel
         (sim_boot [32] erased_array) = Some (status, m')) /\
    log m' = log (sim_boot [32] erased_array)
             ++ evs ++ [Get8 1073872896 status] /\
    0 <= status < 256.
Proof.
  apply (proj2 (execute_returns_raw_status s32k1xx_ftfc scripted_ftfc)
           scripted_ftfc_live).
Defined.

(** * The further properties on the sample controllers *)

Lemma idle_ftfc_live : live s32k1xx_ftfc idle_ftfc.
Proof. intros d. exists 1%nat. reflexivity. Qed.

Lemma idle_ftfc_error_free : error_free s32k1xx_ftfc idle_ftfc.
Proof. intros d. reflexivity. Qed.

Lemma dead_ftfc_stuck d : stuck s32k1xx_ftfc dead_ftfc d.
Proof. intros n. induction n as [|n IH]; [reflexivity|exact IH]. Qed.

Lemma getpage_inside_page_witness :
  up_progmem_getpage (s32k1xx_dflash false false)
    (up_progmem_getaddress (s32k1xx_dflash false false) 3 + 100) = 3.
Proof.
  apply getpage_inside_page.
  - unfold region_fits. simpl. lia.
  - simpl. lia.
  - simpl. lia.
Defined.

Lemma getaddress_getpage_floor_witness :
  let page := up_progmem_getpage (s32k1xx_dflash false false) 268440456 in
  let base := up_progmem_getaddress (s32k1xx_dflash false false) page in
  0 <= page < 32 /\
  base <= 268440456 < base + 2048 /\
  (base - 268435456) mod 2048 = 0.
Proof.
  apply (getaddress_getpage_floor (s32k1xx_dflash false false) 268440456).
  - unfold region_fits. simpl. lia.
  - simpl. lia.
Defined.

Lemma getpage_absolute_or_relative_witness :
  up_progmem_getpage (s32k1xx_dflash false false) (268435456 + 5000)
  = up_progmem_getpage (s32k1xx_dflash false false) 5000.
Proof.
  apply (getpage_absolute_or_relative (s32k1xx_dflash false false) 5000).
  - simpl. lia.
  - simpl. lia.
Defined.

Lemma getpage_never_negative_witness :
  up_progmem_getpage (s32k1xx_dflash false false) 4294967295
  = strip_start_addr (s32k1xx_dflash false false) 4294967295 / 2048 /\
  0 <= up_progmem_getpage (s32k1xx_dflash false false) 4294967295.
Proof.
  apply (getpage_never_negative (s32k1xx_dflash false false) 4294967295).
  - lia.
  - simpl. lia.
Defined.

Lemma erase_and_write_address_agree_witness :
  let write_dest :=
    wrap32 (strip_start_addr (s32k1xx_dflash false false)
              (268435456 + 3 * 4096) + 8388608) in
  fccob1 (erase_dest (s32k1xx_dflash false false) 3) = fccob1 write_dest /\
  fccob2 (erase_dest (s32k1xx_dflash false false) 3) = fccob2 write_dest /\
  fccob3 (erase_dest (s32k1xx_dflash false false) 3) = fccob3 write_dest.
Proof.
  apply (erase_and_write_address_agree (s32k1xx_dflash false false) 3).
  - reflexivity.
  - simpl. lia.
  - simpl. lia.
  - simpl. lia.
Defined.

Lemma write_zero_count_witness :
  up_progmem_write (s32k1xx_dflash true false) s32k1xx_ftfc scripted_ftfc
    0 268435456 ramp 0 (sim_boot [16] erased_array)
  = Some (0, sim_boot [16] erased_array).
Proof.
  apply write_zero_count. reflexivity.
Defined.

Lemma write_returns_one_of_three_witness :
  exists fuel0 r m',
    (forall fuel, (fuel0 <= fuel)%nat ->
       up_progmem_write (s32k1xx_dflash true false) s32k1xx_ftfc
         scripted_ftfc fuel 268435456 ramp 24
         (sim_boot [0; 32] erased_array) = Some (r, m')) /\
    (r = - EINVAL \/ r = - EIO \/ r = to_ssize 24).
Proof.
  apply (write_returns_one_of_three (s32k1xx_dflash true false)
           s32k1xx_ftfc scripted_ftfc 268435456 ramp 24
           (sim_boot [0; 32] erased_array) scripted_ftfc_live).
Defined.

Lemma eraseblock_succeeds_when_error_free_witness :
  exists fuel0 m',
    forall fuel, (fuel0 <= fuel)%nat ->
      up_progmem_eraseblock (s32k1xx_dflash true false) s32k1xx_ftfc
        idle_ftfc fuel 5 (idle_boot erased_array)
      = Some (4096, m').
Proof.
  apply (eraseblock_succeeds_when_error_free (s32k1xx_dflash true false)
           s32k1xx_ftfc idle_ftfc 5 (idle_boot erased_array)
           idle_ftfc_live idle_ftfc_error_free).
  simpl. lia.
Defined.

Lemma write_succeeds_when_error_free_witness :
  exists fuel0 m',
    forall fuel, (fuel0 <= fuel)%nat ->
      up_progmem_write (s32k1xx_dflash true false) s32k1xx_ftfc
        idle_ftfc fuel 268435456 ramp 4096 (idle_boot erased_array)
      = Some (4096, m').
Proof.
  apply (write_succeeds_when_error_free (s32k1xx_dflash true false)
           s32k1xx_ftfc idle_ftfc 268435456 ramp 4096
           (idle_boot erased_array) idle_ftfc_live idle_ftfc_error_free).
  - reflexivity.
  - lia.
Defined.

Lemma stuck_controller_hangs_witness :
  up_progmem_eraseblock (s32k1xx_dflash false false) s32k1xx_ftfc dead_ftfc
    1000 0 {| dev := (tt : hw dead_ftfc); log := [] |} = None /\
  up_progmem_write (s32k1xx_dflash false false) s32k1xx_ftfc dead_ftfc
    1000 268435456 ramp 8 {| dev := (tt : hw dead_ftfc); log := [] |} = None.
Proof.
  destruct (proj2 (stuck_controller_hangs (s32k1xx_dflash false false)
                     s32k1xx_ftfc dead_ftfc 1000 0 268435456 ramp 8
                     {| dev := (tt : hw dead_ftfc); log := [] |})
              (dead_ftfc_stuck tt)) as [He Hw].
  split; [exact He|].
  apply Hw.
  - reflexivity.
  - reflexivity.
  - simpl. lia.
Defined.




Lemma write_workaround_skips_on_first_word_witness :
  up_progmem_write (s32k1xx_dflash false true) s32k1xx_ftfc scripted_ftfc
    0 268435456 erased_word_then_zeros 16 (sim_boot [] erased_array)
  = Some (to_ssize 16,
          {| dev := dev (sim_boot [] erased_array);
             log := log (sim_boot [] erased_array)
                    ++ [Load32 0 (buf_word erased_word_then_zeros);
                        Load32 0 (buf_word erased_word_then_zeros)] |}).
Proof.
  apply (write_workaround_skips_on_first_word (s32k1xx_dflash false true)
           s32k1xx_ftfc scripted_ftfc 0 268435456 erased_word_then_zeros 16
           (sim_boot [] erased_array)).
  - reflexivity.
  - reflexivity.
  - vm_compute. reflexivity.
Defined.

Lemma ispageerased_bounds_dirty_bytes_witness :
  exists r m',
    up_progmem_ispageerased (s32k1xx_dflash false false) scripted_ftfc 0
      (sim_boot [] dirty_array) = Some (r, m') /\
    dev m' = dev (sim_boot [] dirty_array) /\
    Z.of_nat (dirty_count scripted_ftfc (dev (sim_boot [] dirty_array))
                (up_progmem_getaddress (s32k1xx_dflash false false) 0)
                (Z.to_nat 2048))
    <= r <= 2048.
Proof.
  apply (ispageerased_bounds_dirty_bytes (s32k1xx_dflash false false)
           scripted_ftfc 0 (sim_boot [] dirty_array)).
  - simpl. lia.
  - simpl. lia.
Defined.

Lemma write_in_two_parts_witness :
  up_progmem_write (s32k1xx_dflash false false) s32k1xx_ftfc scripted_ftfc
    3 268435456 ramp (8 + 16) two_part_boot
  = match up_progmem_write (s32k1xx_dflash false false) s32k1xx_ftfc
            scripted_ftfc 3 (268435456 + 8) (shift_buffer ramp 8) 16
            two_part_after_first with
    | Some (r, m2) => Some (if r =? 16 then 8 + 16 else r, m2)
    | None => None
    end.
Proof.
  apply (write_in_two_parts (s32k1xx_dflash false false) s32k1xx_ftfc
           scripted_ftfc 3 268435456 ramp 8 16 two_part_boot
           two_part_after_first).
  - reflexivity.
  - reflexivity.
  - simpl. lia.
  - reflexivity.
  - reflexivity.
  - lia.
  - lia.
  - lia.
  - lia.
  - lia.
  - simpl. lia.
  - left. simpl. lia.
  - vm_compute. reflexivity.
Defined.


Lemma wait_ftfc_ready_polls_only_witness :
  exists fuel0 polls vr m',
    (forall fuel, (fuel0 <= fuel)%nat ->
       wait_ftfc_ready s32k1xx_ftfc scripted_ftfc fuel
         (sim_boot [] erased_array) = Some (tt, m')) /\
    log m' = log (sim_boot [] erased_array)
             ++ map (Get8 1073872896) polls ++ [Get8 1073872896 vr] /\
    Forall (ccif_clear s32k1xx_ftfc) polls /\
    Z.land vr 128 <> 0 /\
    (Z.land (to_uint8 (fst (dev_get scripted_ftfc 1073872896
                              (dev (sim_boot [] erased_array))))) 128 <> 0 ->
     polls = []).
Proof.
  apply (wait_ftfc_ready_polls_only s32k1xx_ftfc scripted_ftfc
           (sim_boot [] erased_array) scripted_ftfc_live).
Defined.
